(** * Verification of the comparative-metrics layer of [backend/server.py]

    The development embeds the pure computation layer of the server
    (baseline comparator, ranker, affordability merger, trend estimator and
    the per-region metrics handler) as Rocq functions and proves the
    properties its specification states about them.

    Numbers.  Python floats are idealised as exact rationals ([Q]): the
    arithmetic of the model has no rounding error and no overflow, so every
    value is finite.  Missing values of pandas ([NaN]) and Python's [None]
    are kept explicit wherever the code tests for them.  Equalities between
    computed numbers are stated with [==] ([Qeq]). *)

From Stdlib Require Import String Ascii.
From Stdlib Require Import List ZArith QArith Qround Bool Lia DecimalString.
From Stdlib Require Import Permutation Sorted Morphisms Setoid.
From Stdlib Require Import Lqa.
From Stdlib Require DecimalNat DecimalFacts.
Import ListNotations.

(* ================================================================== *)
(** * Python and pandas primitives *)
(* ================================================================== *)

Module Py.

Local Open Scope Q_scope.

(** [x < y] on numbers, as a boolean. *)
Definition Qltb (x y : Q) : bool := negb (Qle_bool y x).

(** Round half to even at the units, the rule of Python's [round]. *)
Definition round_half_even (y : Q) : Z :=
  let f := Qfloor y in
  match Qcompare (y - inject_Z f) (1 # 2) with
  | Lt => f
  | Gt => (f + 1)%Z
  | Eq => if Z.even f then f else (f + 1)%Z
  end.

(** [round(x, ndigits)]. *)
Definition round (x : Q) (ndigits : nat) : Q :=
  let scale := inject_Z (10 ^ Z.of_nat ndigits) in
  inject_Z (round_half_even (x * scale)) / scale.

Definition sum (l : list Q) : Q := fold_right Qplus 0 l.

(** [Series.mean()] on a series without missing values. *)
Definition mean (l : list Q) : Q := sum l / inject_Z (Z.of_nat (length l)).

(** [np.isfinite]: every number of the model is finite. *)
Definition isfinite (x : Q) : bool := true.

(** [l[:stop]] for a Python integer [stop]. *)
Definition slice_to {A} (l : list A) (stop : Z) : list A :=
  if (0 <=? stop)%Z then firstn (Z.to_nat stop) l
  else firstn (Z.to_nat (Z.of_nat (length l) + stop)) l.

(** [l[start:]] for a Python integer [start]. *)
Definition slice_from {A} (l : list A) (start : Z) : list A :=
  if (0 <=? start)%Z then skipn (Z.to_nat start) l
  else skipn (Z.to_nat (Z.of_nat (length l) + start)) l.

Section Sorting.
Context {A : Type}.
Variable leb : A -> A -> bool.

(** Insertion in front of the first element that [x] does not come
    strictly after: elements that compare equal keep their order. *)
Fixpoint insert (x : A) (l : list A) : list A :=
  match l with
  | [] => [x]
  | y :: l' => if leb x y then x :: y :: l' else y :: insert x l'
  end.

(** [sorted(l)] for the order [leb]; stable, as Python's sort is. *)
Fixpoint sorted (l : list A) : list A :=
  match l with
  | [] => []
  | x :: l' => insert x (sorted l')
  end.
End Sorting.

(** [sorted(l, key=key, reverse=True)] with numeric keys. *)
Definition sorted_desc {A} (key : A -> Q) (l : list A) : list A :=
  sorted (fun x y => Qle_bool (key y) (key x)) l.

(** A value of a column of objects: a string, an integer, or missing. *)
Inductive pyval : Type :=
| PStr (s : string)
| PInt (z : Z)
| PNaN.

(** Element-wise [==] of pandas: values of different types differ and a
    missing value is equal to nothing, itself included. *)
Definition py_eq (a b : pyval) : bool :=
  match a, b with
  | PStr s, PStr t => String.eqb s t
  | PInt x, PInt y => Z.eqb x y
  | _, _ => false
  end.

(** Identity of values as [Series.unique()] sees it: missing values are
    one value. *)
Definition same_value (a b : pyval) : bool :=
  match a, b with
  | PNaN, PNaN => true
  | _, _ => py_eq a b
  end.

(** [Series.unique()]: the distinct values in order of first appearance. *)
Fixpoint unique (l : list pyval) : list pyval :=
  match l with
  | [] => []
  | x :: l' => x :: filter (fun y => negb (same_value x y)) (unique l')
  end.

End Py.

(* ================================================================== *)
(** * The inventory dataset and the baseline comparator *)
(* ================================================================== *)

Module Comparator.
Import Py.
Local Open Scope Q_scope.

(** A cleaned row of an inventory dataset. *)
Record Row : Type := mkRow {
  region_of : pyval;
  month_date_yyyymm : Z;
  active_listing_count : Q;
  pending_listing_count : Q;
  median_days_on_market : Q;
  price_reduced_count : Q
}.

(** A cleaned dataset: the name of its region column and its rows.
    [pd.DataFrame()] is the dataset without rows. *)
Record DataFrame : Type := mkDF {
  region_column : string;
  rows : list Row
}.

Definition df_empty (df : DataFrame) : bool :=
  match rows df with [] => true | _ :: _ => false end.

(** [df['month_date_yyyymm'].max()] *)
Definition max_month (l : list Row) : Z :=
  match l with
  | [] => 0%Z
  | r :: l' => fold_left Z.max (map month_date_yyyymm l') (month_date_yyyymm r)
  end.

(** A Comparison Result. *)
Record Result : Type := mkResult {
  region : pyval;
  currentActive : Q;
  historicalActive : Q;
  changePercentage : Q;
  currentPending : Q;
  historicalPending : Q;
  pendingChange : Q;
  currentRatio : Q;
  historicalRatio : Q;
  ratioChange : Q
}.

Definition latest_month (df : DataFrame) : Z := max_month (rows df).

(** Rows of 2016-2019 in the calendar month of the latest month. *)
Definition pre_pandemic (df : DataFrame) : list Row :=
  let latest_month_num := (latest_month df mod 100)%Z in
  filter (fun r =>
            (201601 <=? month_date_yyyymm r)%Z
            && (month_date_yyyymm r <=? 201912)%Z
            && (month_date_yyyymm r mod 100 =? latest_month_num)%Z)
         (rows df).

Definition current_data (df : DataFrame) : list Row :=
  filter (fun r => (month_date_yyyymm r =? latest_month df)%Z) (rows df).

(** [current_data[current_data[region_col] == region]] *)
Definition current_rows (df : DataFrame) (reg : pyval) : list Row :=
  filter (fun r => py_eq (region_of r) reg) (current_data df).

Definition historical_data (df : DataFrame) (reg : pyval) : list Row :=
  filter (fun r => py_eq (region_of r) reg) (pre_pandemic df).

(** The positive baseline values of a region. *)
Definition valid_active (df : DataFrame) (reg : pyval) : list Q :=
  filter (fun x => Qltb 0 x) (map active_listing_count (historical_data df reg)).

Definition valid_pending (df : DataFrame) (reg : pyval) : list Q :=
  filter (fun x => Qltb 0 x) (map pending_listing_count (historical_data df reg)).

(** The body of the loop over regions: [None] when the region is skipped
    (also when [.iloc[0]] raises on an empty selection). *)
Definition process_region (df : DataFrame) (reg : pyval) : option Result :=
  match current_rows df reg with
  | [] => None
  | current_row :: _ =>
    let current_active := active_listing_count current_row in
    let current_pending := pending_listing_count current_row in
    let valid_active := valid_active df reg in
    let valid_pending := valid_pending df reg in
    if (3 <=? length valid_active)%nat && (3 <=? length valid_pending)%nat
       && Qltb 0 current_active && Qltb 0 current_pending
    then
      let hist_active_mean := mean valid_active in
      let hist_pending_mean := mean valid_pending in
      if Qltb current_active 30 || Qltb current_pending 30
         || Qltb hist_active_mean 30 || Qltb hist_pending_mean 30
      then None
      else
        let current_ratio := current_pending / current_active in
        let historical_ratio := hist_pending_mean / hist_active_mean in
        let active_change :=
          ((current_active - hist_active_mean) / hist_active_mean) * 100 in
        let pending_change :=
          ((current_pending - hist_pending_mean) / hist_pending_mean) * 100 in
        let ratio_change :=
          ((current_ratio - historical_ratio) / historical_ratio) * 100 in
        if forallb isfinite [active_change; pending_change; ratio_change]
        then Some {| region := reg;
                     currentActive := round current_active 2;
                     historicalActive := round hist_active_mean 2;
                     changePercentage := round active_change 2;
                     currentPending := round current_pending 2;
                     historicalPending := round hist_pending_mean 2;
                     pendingChange := round pending_change 2;
                     currentRatio := round current_ratio 4;
                     historicalRatio := round historical_ratio 4;
                     ratioChange := round ratio_change 2 |}
        else None
    else None
  end.

Definition option_to_list {A} (o : option A) : list A :=
  match o with Some a => [a] | None => [] end.

(** [calculate_metrics(df, region_col)].  Selecting a column the dataset
    does not have raises, and the outer handler returns the empty list. *)
Definition calculate_metrics (df : DataFrame) (region_col : string) : list Result :=
  if df_empty df then []
  else if negb (String.eqb region_col (region_column df)) then []
  else
    flat_map (fun reg => option_to_list (process_region df reg))
             (unique (map region_of (current_data df))).

End Comparator.

(* ================================================================== *)
(** * The ranker *)
(* ================================================================== *)

Module Ranker.
Import Py.
Local Open Scope Q_scope.

(** An entry of a ranking. *)
Record Entry : Type := mkEntry {
  region : pyval;
  current : Q;
  prePandemic : Q;
  changePercentage : Q
}.

Definition active_entry (item : Comparator.Result) : Entry :=
  {| region := Comparator.region item;
     current := Comparator.currentActive item;
     prePandemic := Comparator.historicalActive item;
     changePercentage := Comparator.changePercentage item |}.

Definition pending_entry (item : Comparator.Result) : Entry :=
  {| region := Comparator.region item;
     current := Comparator.currentPending item;
     prePandemic := Comparator.historicalPending item;
     changePercentage := Comparator.pendingChange item |}.

Definition ratio_entry (item : Comparator.Result) : Entry :=
  {| region := Comparator.region item;
     current := Comparator.currentRatio item;
     prePandemic := Comparator.historicalRatio item;
     changePercentage := Comparator.ratioChange item |}.

(** The default of the parameter [n]. *)
Definition default_n : Z := 10.

(** [get_top_bottom(data, metric, n)]; every selector other than
    ['active'] and ['pending'] takes the ratio branch. *)
Definition get_top_bottom (data : list Comparator.Result) (metric : string) (n : Z)
  : list Entry * list Entry :=
  if String.eqb metric "active" then
    let sorted_data := sorted_desc Comparator.changePercentage data in
    (map active_entry (slice_to sorted_data n),
     map active_entry (slice_from sorted_data (- n)))
  else if String.eqb metric "pending" then
    let sorted_data := sorted_desc Comparator.pendingChange data in
    (map pending_entry (slice_to sorted_data n),
     map pending_entry (slice_from sorted_data (- n)))
  else
    let sorted_data := sorted_desc Comparator.ratioChange data in
    (map ratio_entry (slice_to sorted_data n),
     map ratio_entry (slice_from sorted_data (- n))).

End Ranker.

(* ================================================================== *)
(** * The fetcher's cleaning step and the per-region metrics handler *)
(* ================================================================== *)

Module Metrics.
Import Py Comparator.
Local Open Scope Q_scope.

Inductive Granularity : Type := national | state | metro | county | zip.

Definition REGION_COLUMNS (g : Granularity) : string :=
  match g with
  | national => "country"
  | state => "state"
  | metro => "cbsa_title"
  | county => "county_name"
  | zip => "postal_code"
  end.

(** A parsed row before cleaning: [None] is a cell that is empty or that
    [pd.to_numeric(errors='coerce')] turns into a missing value. *)
Record RawRow : Type := mkRaw {
  raw_region : pyval;
  raw_month : option Z;
  raw_active : option Q;
  raw_pending : option Q;
  raw_days : option Q;
  raw_reduced : option Q
}.

Definition clean_row (r : RawRow) : option Row :=
  match raw_month r, raw_active r, raw_pending r, raw_days r, raw_reduced r with
  | Some m, Some a, Some p, Some d, Some c => Some (mkRow (raw_region r) m a p d c)
  | _, _, _, _, _ => None
  end.

(** [dropna(subset=['month_date_yyyymm'] + numeric_columns)] *)
Definition dropna (l : list RawRow) : list Row :=
  flat_map (fun r => option_to_list (clean_row r)) l.

(** The chunks [pd.read_csv(..., chunksize=size)] yields. *)
Fixpoint chunks_fuel {A} (fuel size : nat) (l : list A) : list (list A) :=
  match fuel, l with
  | O, _ => []
  | _, [] => []
  | S fuel', _ :: _ => firstn size l :: chunks_fuel fuel' size (skipn size l)
  end.

Definition read_chunks {A} (size : nat) (l : list A) : list (list A) :=
  chunks_fuel (length l) size l.

(** The [chunksize] of the chunked read. *)
Definition chunksize : nat := Z.to_nat 10000.

(** [str(v)] *)
Definition py_str (v : pyval) : string :=
  match v with
  | PStr s => s
  | PInt z => NilZero.string_of_int (Z.to_int z)
  | PNaN => "nan"
  end.

(** [df['postal_code'].astype(str)] on one row. *)
Definition astype_str (r : Row) : Row :=
  mkRow (PStr (py_str (region_of r))) (month_date_yyyymm r)
        (active_listing_count r) (pending_listing_count r)
        (median_days_on_market r) (price_reduced_count r).

Definition empty_frame : DataFrame := mkDF "" [].

(** [fetch_realtor_data(granularity)] from the parsed response; [None]
    stands for every failure of the request or of the parser. *)
Definition fetch_realtor_data (granularity : Granularity)
    (response : option (list RawRow)) : DataFrame :=
  match response with
  | None => empty_frame
  | Some raw =>
    match granularity with
    | zip | county =>
      match map dropna (read_chunks chunksize raw) with
      | [] => empty_frame
      | chunks =>
        let df := concat chunks in
        mkDF (REGION_COLUMNS granularity)
             (match granularity with zip => map astype_str df | _ => df end)
      end
    | _ => mkDF (REGION_COLUMNS granularity) (dropna raw)
    end
  end.

(** A point of a metric's series. *)
Record Point : Type := mkPoint {
  month : string;
  current : option Q;
  historical : option Q;
  percentChange : option Q
}.

Record MetricsDict : Type := mkMetrics {
  m_active_listing_count : list Point;
  m_pending_listing_count : list Point;
  m_pending_ratio : list Point;
  m_median_days_on_market : list Point;
  m_price_reduced_count : list Point
}.

(** What the handler returns: the empty object or the metrics. *)
Inductive Response : Type :=
| EmptyObject
| MetricsObject (m : MetricsDict).

(** Division of Python floats: a zero divisor raises. *)
Definition py_div (x y : Q) : option Q :=
  if Qeq_bool y 0 then None else Some (x / y).

(** [f"{v:02d}"] for a non-negative integer. *)
Definition pad2 (v : Z) : string :=
  let s := NilZero.string_of_int (Z.to_int v) in
  if (String.length s <? 2)%nat then String.append "0" s else s.

(** [f"{int(month//100)}-{int(month%100):02d}"] *)
Definition month_str (m : Z) : string :=
  String.append (NilZero.string_of_int (Z.to_int (m / 100)))
                (String.append "-" (pad2 (m mod 100))).

(** The months of a selection, distinct and ascending. *)
Definition sorted_months (l : list Row) : list Z :=
  sorted Z.leb (nodup Z.eq_dec (map month_date_yyyymm l)).

Definition baseline_rows (df : list Row) (month_num : Z) : list Row :=
  filter (fun r =>
            (201601 <=? month_date_yyyymm r)%Z
            && (month_date_yyyymm r <=? 201912)%Z
            && (month_date_yyyymm r mod 100 =? month_num)%Z) df.

(** One iteration of the loop over the four metric columns; [None] when
    the iteration raises and is skipped. *)
Definition metric_point (mstr : string) (month_data historical_data : list Row)
    (metric : Row -> Q) : option Point :=
  match month_data with
  | [] => None
  | r :: _ =>
    let current := metric r in
    let valid_historical := filter (fun h => Qltb 0 (metric h)) historical_data in
    if (3 <=? length valid_historical)%nat then
      let historical := mean (map metric valid_historical) in
      if isfinite current && isfinite historical then
        match py_div (current - historical) historical with
        | None => None
        | Some q =>
          Some (mkPoint mstr (Some current) (Some historical) (Some (round (q * 100) 2)))
        end
      else Some (mkPoint mstr (Some current) (Some historical) None)
    else Some (mkPoint mstr (Some current) None None)
  end.

(** The pending-ratio part of one iteration of the loop over months. *)
Definition ratio_point (mstr : string) (month_data historical_data : list Row)
  : option Point :=
  match month_data with
  | [] => None
  | r :: _ =>
    let current_active := active_listing_count r in
    let current_pending := pending_listing_count r in
    let valid_hist_active :=
      filter (fun h => Qltb 0 (active_listing_count h)) historical_data in
    let valid_hist_pending :=
      filter (fun h => Qltb 0 (pending_listing_count h)) historical_data in
    if (3 <=? length valid_hist_active)%nat && (3 <=? length valid_hist_pending)%nat
    then
      let hist_active := mean (map active_listing_count valid_hist_active) in
      let hist_pending := mean (map pending_listing_count valid_hist_pending) in
      if Qltb 0 current_active && Qltb 0 hist_active then
        let current_ratio := current_pending / current_active in
        let historical_ratio := hist_pending / hist_active in
        match py_div (current_ratio - historical_ratio) historical_ratio with
        | None => None
        | Some q =>
          Some (mkPoint mstr (Some (round current_ratio 4))
                        (Some (round historical_ratio 4))
                        (Some (round (q * 100) 2)))
        end
      else None
    else
      Some (mkPoint mstr
              (if Qltb 0 current_active
               then Some (round (current_pending / current_active) 4) else None)
              None None)
  end.

(** The series of the selected region's rows [df]. *)
Definition region_metrics (df : list Row) : MetricsDict :=
  let latest_month := max_month df in
  let twelve_months_ago := (latest_month - 100)%Z in
  let recent_data :=
    filter (fun r => (twelve_months_ago <? month_date_yyyymm r)%Z) df in
  let per_month (f : string -> list Row -> list Row -> option Point) :=
    flat_map (fun m =>
                let month_data :=
                  filter (fun r => (month_date_yyyymm r =? m)%Z) recent_data in
                option_to_list (f (month_str m) month_data (baseline_rows df (m mod 100))))
             (sorted_months recent_data) in
  {| m_active_listing_count :=
       per_month (fun s md hd => metric_point s md hd active_listing_count);
     m_pending_listing_count :=
       per_month (fun s md hd => metric_point s md hd pending_listing_count);
     m_pending_ratio := per_month ratio_point;
     m_median_days_on_market :=
       per_month (fun s md hd => metric_point s md hd median_days_on_market);
     m_price_reduced_count :=
       per_month (fun s md hd => metric_point s md hd price_reduced_count) |}.

Section Handler.

(** [int(region)]: [None] when the string is not an integer literal and
    the call raises.  The handler is studied for every such function. *)
Variable py_int : string -> option Z.

(** The value the region column is compared with; [None] when computing
    it raises. *)
Definition region_key (granularity : Granularity) (region : string) : option pyval :=
  match granularity with
  | county => Some (PStr region)
  | zip => option_map PInt (py_int region)
  | _ => Some (PStr region)
  end.

(** [get_metrics(granularity, region)] on the parsed response of the
    fetch.  An exception anywhere in the body returns the empty object. *)
Definition get_metrics (granularity : Granularity) (region : string)
    (response : option (list RawRow)) : Response :=
  let df := fetch_realtor_data granularity response in
  if df_empty df then EmptyObject
  else
    match region_key granularity region with
    | None => EmptyObject
    | Some key =>
      match filter (fun r => py_eq (region_of r) key) (rows df) with
      | [] => EmptyObject
      | selected => MetricsObject (region_metrics selected)
      end
    end.

End Handler.

End Metrics.

(* ================================================================== *)
(** * The affordability merger and the affordability summary *)
(* ================================================================== *)

Module Affordability.
Import Py.
Local Open Scope Q_scope.

(** A cell of a wide table: a number or a missing value. *)
Inductive float : Type :=
| NaN
| Fin (q : Q).

(** A row of a wide table: the region's name and its cells by column
    name; a column without a cell in the row holds a missing value. *)
Record WideRow : Type := mkWideRow {
  RegionName : string;
  cells : list (string * float)
}.

(** A wide table: its column names and its rows. *)
Record WideFrame : Type := mkWide {
  columns : list string;
  wrows : list WideRow
}.

(** [df.empty]: no row or no column. *)
Definition wide_empty (df : WideFrame) : bool :=
  match wrows df, columns df with
  | [], _ => true
  | _, [] => true
  | _ :: _, _ :: _ => false
  end.

Fixpoint assoc (k : string) (l : list (string * float)) : option float :=
  match l with
  | [] => None
  | (k', v) :: l' => if String.eqb k k' then Some v else assoc k l'
  end.

(** [row[col]]: [None] when the table has no such column and the access
    raises [KeyError]. *)
Definition get_cell (df : WideFrame) (row : WideRow) (col : string) : option float :=
  if existsb (String.eqb col) (columns df) then
    Some (match assoc col (cells row) with Some v => v | None => NaN end)
  else None.

Definition is_digit (c : ascii) : bool :=
  let n := nat_of_ascii c in (48 <=? n)%nat && (n <=? 57)%nat.

(** [re.match(r'\d{4}-\d{2}', col)]: the pattern matches a prefix. *)
Definition is_month_column (col : string) : bool :=
  match col with
  | String a (String b (String c (String d (String e (String f (String g _)))))) =>
    is_digit a && is_digit b && is_digit c && is_digit d
    && Ascii.eqb e "-" && is_digit f && is_digit g
  | _ => false
  end.

(** [l[-1]]; [None] when the list is empty and the access raises. *)
Definition last_opt {A} (l : list A) : option A :=
  match rev l with
  | [] => None
  | x :: _ => Some x
  end.

(** An affordability result. *)
Record Result : Type := mkResult {
  region : string;
  homeownerAffordability : option Q;
  renterAffordability : Q;
  affordabilityGap : option Q
}.

(** [pd.isna(v) or v == 0] for a cell; the number otherwise. *)
Definition usable (v : float) : option Q :=
  match v with
  | NaN => None
  | Fin q => if Qeq_bool q 0 then None else Some q
  end.

(** The body of the loop over the homeowner rows; [None] when the row is
    skipped. *)
Definition merge_row (homeowner_df renter_df : WideFrame) (latest_month : string)
    (homeowner_row : WideRow) : option Result :=
  let region := RegionName homeowner_row in
  match filter (fun r => String.eqb (RegionName r) region) (wrows renter_df) with
  | [] => None
  | renter_row :: _ =>
    match get_cell renter_df renter_row latest_month with
    | None => None
    | Some rv =>
      match usable rv with
      | None => None
      | Some renter_value =>
        let homeowner_value :=
          match get_cell homeowner_df homeowner_row latest_month with
          | None => None
          | Some hv => usable hv
          end in
        let affordability_gap :=
          match homeowner_value with
          | Some h => Some (h - renter_value)
          | None => None
          end in
        Some {| region := region;
                homeownerAffordability := homeowner_value;
                renterAffordability := renter_value;
                affordabilityGap := affordability_gap |}
      end
    end
  end.

Definition has_gap (r : Result) : bool :=
  match affordabilityGap r with Some _ => true | None => false end.

(** The sort key of a result that has a gap. *)
Definition gap_key (r : Result) : Q :=
  match affordabilityGap r with Some g => g | None => 0 end.

(** [calculate_affordability_metrics(homeowner_df, renter_df)] *)
Definition calculate_affordability_metrics (homeowner_df renter_df : WideFrame)
  : list Result :=
  if wide_empty homeowner_df || wide_empty renter_df then []
  else
    let date_columns := filter is_month_column (columns homeowner_df) in
    match last_opt (sorted String.leb date_columns) with
    | None => []
    | Some latest_month =>
      let results :=
        flat_map (fun row =>
                    Comparator.option_to_list
                      (merge_row homeowner_df renter_df latest_month row))
                 (wrows homeowner_df) in
      let valid_results := filter has_gap results in
      let invalid_results := filter (fun r => negb (has_gap r)) results in
      let sorted_valid_results := sorted_desc gap_key valid_results in
      sorted_valid_results ++ invalid_results
    end.

(** The response of the summary endpoint. *)
Record Summary : Type := mkSummary {
  leastAffordable : list Result;
  mostAffordable : list Result
}.

(** [get_affordability_summary()] on the two fetched tables. *)
Definition get_affordability_summary (homeowner_df renter_df : WideFrame) : Summary :=
  if wide_empty homeowner_df || wide_empty renter_df
  then {| leastAffordable := []; mostAffordable := [] |}
  else
    match calculate_affordability_metrics homeowner_df renter_df with
    | [] => {| leastAffordable := []; mostAffordable := [] |}
    | results =>
      let valid_results := filter has_gap results in
      let invalid_results := filter (fun r => negb (has_gap r)) results in
      let sorted_valid_results := sorted_desc gap_key valid_results in
      let sorted_results := sorted_valid_results ++ invalid_results in
      {| leastAffordable := slice_to sorted_results 10;
         mostAffordable := rev (slice_from sorted_valid_results (-10)) |}
    end.

End Affordability.

(* ================================================================== *)
(** * The trend estimator *)
(* ================================================================== *)

Module Trend.
Import Py.
Local Open Scope Q_scope.

Definition float := Affordability.float.

(** [enumerate(data)] *)
Definition enumerate {A} (l : list A) : list (nat * A) :=
  combine (seq 0 (length l)) l.

(** The pairs [(i, x)] with [x is not None and not np.isnan(x)]. *)
Definition valid_pairs (data : list (option float)) : list (nat * Q) :=
  flat_map (fun p =>
              match snd p with
              | Some (Affordability.Fin x) => [(fst p, x)]
              | _ => []
              end)
           (enumerate data).

Definition of_nat (i : nat) : Q := inject_Z (Z.of_nat i).

(** [np.polyfit(x, y, 1)]: slope and intercept of the least-squares line
    through the points, from the normal equations.  [None] stands for a
    failure of the fit; the system is singular only when all abscissas
    coincide. *)
Definition polyfit (pts : list (nat * Q)) : option (Q * Q) :=
  let n := of_nat (length pts) in
  let sx := sum (map (fun p => of_nat (fst p)) pts) in
  let sy := sum (map snd pts) in
  let sxx := sum (map (fun p => of_nat (fst p) * of_nat (fst p)) pts) in
  let sxy := sum (map (fun p => of_nat (fst p) * snd p) pts) in
  let den := n * sxx - sx * sx in
  if Qeq_bool den 0 then None
  else
    let slope := (n * sxy - sx * sy) / den in
    let intercept := (sy - slope * sx) / n in
    Some (slope, intercept).

Definition all_none (data : list (option float)) : list (option Q) :=
  repeat None (length data).

(** [calculate_regression_trend(data)].  A failure of the fit returns
    the all-[None] list; [used] holds at least three pairs where it is
    taken apart, so its empty case is never reached. *)
Definition calculate_regression_trend (data : list (option float)) : list (option Q) :=
  if (length data <? 3)%nat then all_none data
  else
    let valid_data := valid_pairs data in
    if (length valid_data <? 3)%nat then all_none data
    else
      let used := slice_from valid_data (-6) in
      match used with
      | [] => all_none data
      | (first, _) :: _ =>
        match polyfit used with
        | None => all_none data
        | Some (slope, intercept) =>
          map (fun i => if (first <=? i)%nat
                        then Some (slope * of_nat i + intercept)
                        else None)
              (seq 0 (length data))
        end
      end.

End Trend.

(* ================================================================== *)
(** * Sample data *)
(* ================================================================== *)

Module Samples.
Import Py.
Local Open Scope Q_scope.

Definition metro_row (m : Z) (a p : Q) : Comparator.Row :=
  Comparator.mkRow (PStr "Metro A") m a p 30 5.

(** One metro region; March of 2016-2019 averages 40 active and 20
    pending listings, the latest month (March 2024) has 50 and 40. *)
Definition small_metro : Comparator.DataFrame :=
  Comparator.mkDF "cbsa_title"
    [metro_row 201603 30 10; metro_row 201703 40 20;
     metro_row 201803 40 20; metro_row 201903 50 30;
     metro_row 202402 70 70; metro_row 202403 50 40].

(** The same region with every count doubled. *)
Definition large_metro : Comparator.DataFrame :=
  Comparator.mkDF "cbsa_title"
    [metro_row 201603 60 20; metro_row 201703 80 40;
     metro_row 201803 80 40; metro_row 201903 100 60;
     metro_row 202402 140 140; metro_row 202403 100 80].

(** The region of [large_metro] with only two baseline months. *)
Definition short_history : Comparator.DataFrame :=
  Comparator.mkDF "cbsa_title"
    [metro_row 201803 80 40; metro_row 201903 100 60; metro_row 202403 100 80].

(** A region whose baseline mean of active listings is 301/3. *)
Definition thirds_metro : Comparator.DataFrame :=
  Comparator.mkDF "cbsa_title"
    [metro_row 201703 100 40; metro_row 201803 100 40;
     metro_row 201903 101 40; metro_row 202403 150 80].

Definition large_metro_result : Comparator.Result :=
  Comparator.mkResult (PStr "Metro A")
    (10000 # 100) (8000 # 100) (2500 # 100)
    (8000 # 100) (4000 # 100) (10000 # 100)
    (8000 # 10000) (5000 # 10000) (6000 # 100).

Definition ranked (name : string) (a p r : Q) : Comparator.Result :=
  Comparator.mkResult (PStr name) 100 100 a 100 100 p 1 1 r.

Definition three_results : list Comparator.Result :=
  [ranked "A" 5 (-2) 1; ranked "B" 12 7 (-4); ranked "C" (-3) 7 9].

Definition wide_row (name : string) (v : Affordability.float) : Affordability.WideRow :=
  Affordability.mkWideRow name [("2024-01-31"%string, v)].

Definition wide (l : list Affordability.WideRow) : Affordability.WideFrame :=
  Affordability.mkWide ["RegionID"; "RegionName"; "2024-01-31"]%string l.

(** Homeowner table with a region the renter table does not have. *)
Definition homeowner_only : Affordability.WideFrame :=
  wide [wide_row "Austin, TX" (Affordability.Fin (3 # 10));
        wide_row "Boise, ID" (Affordability.Fin (4 # 10))].

Definition renter_one : Affordability.WideFrame :=
  wide [wide_row "Boise, ID" (Affordability.Fin (1 # 4))].

(** Homeowner table whose only region has a missing latest value. *)
Definition homeowner_missing : Affordability.WideFrame :=
  wide [wide_row "Boise, ID" Affordability.NaN].

Definition trend_input : list (option Trend.float) :=
  [None; None; Some (Affordability.Fin 1); Some (Affordability.Fin 2);
   Some (Affordability.Fin 3)].

Definition zip_response : option (list Metrics.RawRow) :=
  Some [Metrics.mkRaw (PStr "02139") (Some 202403%Z) (Some 50) (Some 40) (Some 30) (Some 5);
        Metrics.mkRaw (PStr "02139") (Some 202402%Z) (Some 55) (Some 35) (Some 30) (Some 5)].

(** A parser of decimal literals, standing for [int] in examples. *)
Definition parse_digits (s : string) : option Z :=
  match NilZero.uint_of_string s with
  | Some u => Some (Z.of_uint u)
  | None => None
  end.

End Samples.

(* ================================================================== *)
(** * The market-balance endpoint *)
(* ================================================================== *)

Module MarketBalance.
Import Py.
Local Open Scope Q_scope.

(** One ranking of the response: its top and its bottom. *)
Record Ranking : Type := mkRanking {
  top : list Ranker.Entry;
  bottom : list Ranker.Entry
}.

(** The response of the market-balance endpoint. *)
Record Balance : Type := mkBalance {
  active : Ranking;
  pending : Ranking;
  ratio : Ranking
}.

Definition empty_balance : Balance :=
  {| active := mkRanking [] [];
     pending := mkRanking [] [];
     ratio := mkRanking [] [] |}.

Definition ranking (results : list Comparator.Result) (metric : string) : Ranking :=
  let (t, b) := Ranker.get_top_bottom results metric Ranker.default_n in
  mkRanking t b.

(** [get_market_balance()] on the parsed response of the metro fetch. *)
Definition get_market_balance (response : option (list Metrics.RawRow)) : Balance :=
  let df := Metrics.fetch_realtor_data Metrics.metro response in
  if Comparator.df_empty df then empty_balance
  else
    match Comparator.calculate_metrics df (Metrics.REGION_COLUMNS Metrics.metro) with
    | [] => empty_balance
    | results =>
      {| active := ranking results "active";
         pending := ranking results "pending";
         ratio := ranking results "ratio" |}
    end.

End MarketBalance.

(* ================================================================== *)
(** * The endpoints that list regions *)
(* ================================================================== *)

Module Regions.
Import Py.

(** An entry of a list of regions, [{"id": ..., "name": ...}]. *)
Record Item (A : Type) : Type := mkItem {
  id : string;
  name : A
}.
Arguments mkItem {A}.
Arguments id {A}.
Arguments name {A}.

(** [str(i)] for an index. *)
Definition str_of_index (i : nat) : string := NilZero.string_of_uint (Nat.to_uint i).

(** [[{"id": str(i), "name": name} for i, name in enumerate(regions)]] *)
Definition items {A} (regions : list A) : list (Item A) :=
  map (fun p => mkItem (str_of_index (fst p)) (snd p)) (Trend.enumerate regions).

(** The distinct elements of a list in order of first appearance. *)
Fixpoint distinct {A} (eqb : A -> A -> bool) (l : list A) : list A :=
  match l with
  | [] => []
  | x :: l' => x :: filter (fun y => negb (eqb x y)) (distinct eqb l')
  end.


(** [a < b] between values of a column: comparing a string with a value
    that is not a string raises [TypeError] ([None]); a missing number is
    below and above nothing. *)
Definition py_lt (a b : pyval) : option bool :=
  match a, b with
  | PStr s, PStr t => Some (String.ltb s t)
  | PInt x, PInt y => Some (x <? y)%Z
  | PStr _, _ | _, PStr _ => None
  | _, _ => Some false
  end.

(** Insertion for [list.sort()], which compares with [<] only. *)
Fixpoint insert_lt (x : pyval) (l : list pyval) : option (list pyval) :=
  match l with
  | [] => Some [x]
  | y :: l' =>
    match py_lt y x with
    | None => None
    | Some true =>
      match insert_lt x l' with
      | Some r => Some (y :: r)
      | None => None
      end
    | Some false => Some (x :: y :: l')
    end
  end.

(** [regions.sort()]: the sorted list, or [None] when a comparison
    raises.  On strings, and on lists that mix strings with other values,
    this is what Python's sort does; the order Python gives to integers
    mixed with a missing number depends on its algorithm and is not
    modelled (the region columns hold strings). *)
Fixpoint sort_values (l : list pyval) : option (list pyval) :=
  match l with
  | [] => Some []
  | x :: l' =>
    match sort_values l' with
    | Some s => insert_lt x s
    | None => None
    end
  end.

(** [get_regions(granularity)] on the parsed response of the fetch;
    [None] is the server error the handler turns an exception into. *)
Definition get_regions (granularity : Metrics.Granularity)
    (response : option (list Metrics.RawRow)) : option (list (Item pyval)) :=
  let df := Metrics.fetch_realtor_data granularity response in
  if Comparator.df_empty df then Some []
  else
    let column :=
      match granularity with
      | Metrics.zip => map (fun r => PStr (Metrics.py_str (Comparator.region_of r)))
                           (Comparator.rows df)
      | _ => map Comparator.region_of (Comparator.rows df)
      end in
    match sort_values (unique column) with
    | Some regions => Some (items regions)
    | None => None
    end.

End Regions.

(* ================================================================== *)
(** * More sample data *)
(* ================================================================== *)

Module MoreSamples.
Import Py.
Local Open Scope Q_scope.

(** A metro table with a named region and a row without region. *)
Definition unnamed_response : option (list Metrics.RawRow) :=
  Some [Metrics.mkRaw (PStr "Metro A") (Some 202403%Z) (Some 50) (Some 40) (Some 30) (Some 5);
        Metrics.mkRaw PNaN (Some 202403%Z) (Some 55) (Some 35) (Some 30) (Some 5)].

End MoreSamples.

(* ================================================================== *)
(** * The monthly affordability series of a region *)
(* ================================================================== *)

Module AffordabilityMetrics.
Import Py Affordability.
Local Open Scope Q_scope.

(** [re.match(r'^\d{4}-\d{2}-\d{2}$', col)]: the whole name is a date; the
    pattern's [$] also accepts one final newline. *)
Definition is_date_column (col : string) : bool :=
  match col with
  | String a (String b (String c (String d (String e (String f (String g
      (String h (String i (String j rest))))))))) =>
    is_digit a && is_digit b && is_digit c && is_digit d && Ascii.eqb e "-"
    && is_digit f && is_digit g && Ascii.eqb h "-" && is_digit i && is_digit j
    && match rest with
       | EmptyString => true
       | String nl EmptyString => Ascii.eqb nl "010"
       | _ => false
       end
  | _ => false
  end.

(** [s.split(sep)] for a separator of one character. *)
Fixpoint split_on (sep : ascii) (s : string) : list string :=
  match s with
  | EmptyString => [EmptyString]
  | String c s' =>
    if Ascii.eqb c sep then EmptyString :: split_on sep s'
    else match split_on sep s' with
         | [] => [String c EmptyString]
         | p :: ps => String c p :: ps
         end
  end.

(** [date.split('-')[0] + '-' + date.split('-')[1]]; [None] when the
    second piece is missing and the index raises. *)
Definition month_of (date : string) : option string :=
  match split_on "-" date with
  | y :: m :: _ => Some (String.append y (String.append "-" m))
  | _ => None
  end.

(** The value of a series for a region at a date: [Some None] when the
    table has no such column or the cell is missing, [None] when the table
    has the column and no row of the region, so that [.iloc[0]] raises. *)
Definition value_at (df : WideFrame) (region date : string) : option (option Q) :=
  if existsb (String.eqb date) (columns df) then
    match filter (fun r => String.eqb (RegionName r) region) (wrows df) with
    | [] => None
    | row :: _ =>
      Some (match assoc date (cells row) with
            | Some (Fin q) => Some q
            | _ => None
            end)
    end
  else Some None.

(** The difference of two values when both are there. *)
Definition difference (a b : option Q) : option Q :=
  match a, b with
  | Some x, Some y => Some (x - y)
  | _, _ => None
  end.

(** A data point of the monthly series, before the trends are added. *)
Record DataPoint : Type := mkPoint {
  month : string;
  homeownerAffordability : option Q;
  renterAffordability : option Q;
  affordabilityGap : option Q;
  totalPayment : option Q;
  mortgagePayment : option Q;
  paymentGap : option Q;
  affordablePrice : option Q;
  medianPrice : option Q;
  priceGap : option Q
}.

(** A data point with its two trend values. *)
Record TrendPoint : Type := mkTrendPoint {
  point : DataPoint;
  gapTrend : option Q;
  priceTrend : option Q
}.

(** The six fetched tables. *)
Record Tables : Type := mkTables {
  homeowner_df : WideFrame;
  renter_df : WideFrame;
  total_payment_df : WideFrame;
  mortgage_payment_df : WideFrame;
  affordable_price_df : WideFrame;
  median_price_df : WideFrame
}.

Definition table_list (t : Tables) : list WideFrame :=
  [homeowner_df t; renter_df t; total_payment_df t; mortgage_payment_df t;
   affordable_price_df t; median_price_df t].

(** [sorted(list(all_date_columns))]: the date columns of all tables,
    each once, in order. *)
Definition all_date_columns (t : Tables) : list string :=
  sorted String.leb
    (Regions.distinct String.eqb
       (flat_map (fun df => filter is_date_column (columns df)) (table_list t))).

(** The body of the loop over the dates; [None] when it raises. *)
Definition data_point (t : Tables) (region date : string) : option DataPoint :=
  match month_of date with
  | None => None
  | Some m =>
    match value_at (homeowner_df t) region date with
    | None => None
    | Some homeowner =>
      match value_at (renter_df t) region date with
      | None => None
      | Some renter =>
        match value_at (total_payment_df t) region date with
        | None => None
        | Some total =>
          match value_at (mortgage_payment_df t) region date with
          | None => None
          | Some mortgage =>
            match value_at (affordable_price_df t) region date with
            | None => None
            | Some affordable =>
              match value_at (median_price_df t) region date with
              | None => None
              | Some median =>
                Some {| month := m;
                        homeownerAffordability := homeowner;
                        renterAffordability := renter;
                        affordabilityGap := difference homeowner renter;
                        totalPayment := total;
                        mortgagePayment := mortgage;
                        paymentGap := difference total mortgage;
                        affordablePrice := affordable;
                        medianPrice := median;
                        priceGap := difference median affordable |}
              end
            end
          end
        end
      end
    end
  end.

(** A loop that builds a list and stops at the first exception. *)
Fixpoint map_opt {A B} (f : A -> option B) (l : list A) : option (list B) :=
  match l with
  | [] => Some []
  | x :: l' =>
    match f x with
    | None => None
    | Some y =>
      match map_opt f l' with
      | None => None
      | Some ys => Some (y :: ys)
      end
    end
  end.

(** The input of the trend estimator for a series of optional values. *)
Definition trend_input (l : list (option Q)) : list (option Trend.float) :=
  map (option_map Fin) l.

(** [get_affordability_metrics(region)] on the six fetched tables;
    [None] is the server error the handler turns an exception into. *)
Definition get_affordability_metrics (t : Tables) (region : string)
  : option (list TrendPoint) :=
  match map_opt (data_point t region) (all_date_columns t) with
  | None => None
  | Some collected =>
    let region_data :=
      sorted (fun a b => String.leb (month a) (month b)) collected in
    let gap_trends :=
      Trend.calculate_regression_trend (trend_input (map affordabilityGap region_data)) in
    let price_trends :=
      Trend.calculate_regression_trend (trend_input (map priceGap region_data)) in
    Some (map (fun p => mkTrendPoint (fst (fst p)) (snd (fst p)) (snd p))
              (combine (combine region_data gap_trends) price_trends))
  end.

End AffordabilityMetrics.

Module SeriesSamples.
Import Py Affordability AffordabilityMetrics.

(** [pd.DataFrame()], what a failed fetch returns. *)
Definition empty_wide : WideFrame := mkWide [] [].

(** Homeowner and renter tables fetched, the four others failed. *)
Definition two_tables : Tables :=
  mkTables Samples.homeowner_only Samples.renter_one
           empty_wide empty_wide empty_wide empty_wide.

End SeriesSamples.

(* ================================================================== *)
(** * Notions the statements use *)
(* ================================================================== *)

Module ComparatorSpec.
Import Py Comparator.
Local Open Scope Q_scope.

(** The guards a region passes before a result is built. *)
Definition enough_history (df : DataFrame) (reg : pyval) (current_row : Row) : bool :=
  (3 <=? length (valid_active df reg))%nat
  && (3 <=? length (valid_pending df reg))%nat
  && Qltb 0 (active_listing_count current_row)
  && Qltb 0 (pending_listing_count current_row).

Definition below_floor (df : DataFrame) (reg : pyval) (current_row : Row) : bool :=
  Qltb (active_listing_count current_row) 30
  || Qltb (pending_listing_count current_row) 30
  || Qltb (mean (valid_active df reg)) 30
  || Qltb (mean (valid_pending df reg)) 30.

(** The result built for a region from its current row. *)
Definition built_result (df : DataFrame) (reg : pyval) (current_row : Row) : Result :=
  let ca := active_listing_count current_row in
  let cp := pending_listing_count current_row in
  let ham := mean (valid_active df reg) in
  let hpm := mean (valid_pending df reg) in
  {| region := reg;
     currentActive := round ca 2;
     historicalActive := round ham 2;
     changePercentage := round (((ca - ham) / ham) * 100) 2;
     currentPending := round cp 2;
     historicalPending := round hpm 2;
     pendingChange := round (((cp - hpm) / hpm) * 100) 2;
     currentRatio := round (cp / ca) 4;
     historicalRatio := round (hpm / ham) 4;
     ratioChange := round ((((cp / ca) - (hpm / ham)) / (hpm / ham)) * 100) 2 |}.

End ComparatorSpec.

Module RankerSpec.
Import Py Ranker.
Local Open Scope Q_scope.

(** The percent-change field and the projection a selector stands for. *)
Inductive selects : string -> (Comparator.Result -> Q) -> (Comparator.Result -> Entry) -> Prop :=
| selects_active : selects "active" Comparator.changePercentage active_entry
| selects_pending : selects "pending" Comparator.pendingChange pending_entry
| selects_ratio : selects "ratio" Comparator.ratioChange ratio_entry.

(** The same for an arbitrary selector string, which the code sends to
    the ratio branch. *)
Definition key_of (metric : string) : Comparator.Result -> Q :=
  if String.eqb metric "active" then Comparator.changePercentage
  else if String.eqb metric "pending" then Comparator.pendingChange
  else Comparator.ratioChange.

Definition entry_of (metric : string) : Comparator.Result -> Entry :=
  if String.eqb metric "active" then active_entry
  else if String.eqb metric "pending" then pending_entry
  else ratio_entry.

End RankerSpec.

Module AffordabilitySpec.
Import Py Affordability.
Local Open Scope Q_scope.

(** What the loop over the homeowner rows collects, before sorting. *)
Definition collected (homeowner_df renter_df : WideFrame) (latest_month : string)
  : list Result :=
  flat_map (fun row =>
              Comparator.option_to_list
                (merge_row homeowner_df renter_df latest_month row))
           (wrows homeowner_df).

End AffordabilitySpec.

Module TrendSpec.
Import Py Trend.
Local Open Scope Q_scope.

(** A point that is neither [None] nor a missing number. *)
Definition is_valid (x : option float) : bool :=
  match x with
  | Some (Affordability.Fin _) => true
  | _ => false
  end.

Definition count_valid (data : list (option float)) : nat :=
  length (filter is_valid data).

(** The valid pairs of a list whose first index is [start]. *)
Definition valid_from (start : nat) (data : list (option float)) : list (nat * Q) :=
  flat_map (fun p =>
              match snd p with
              | Some (Affordability.Fin x) => [(fst p, x)]
              | _ => []
              end)
           (combine (seq start (length data)) data).





End TrendSpec.

Module CoverageSpec.
Import Py Comparator.
Local Open Scope Q_scope.

(** The rows the comparator reads: those of the latest month and those of
    the baseline window in its calendar month. *)
Definition relevant (df : DataFrame) (r : Row) : bool :=
  (month_date_yyyymm r =? latest_month df)%Z
  || ((201601 <=? month_date_yyyymm r)%Z
      && (month_date_yyyymm r <=? 201912)%Z
      && (month_date_yyyymm r mod 100 =? latest_month df mod 100)%Z).

Definition restrict (df : DataFrame) : DataFrame :=
  mkDF (region_column df) (filter (relevant df) (rows df)).

End CoverageSpec.

Module MetricsSpec.
Import Py Comparator Metrics.
Local Open Scope Q_scope.

(** The rows of the trailing window of a selection. *)
Definition recent_rows (selected : list Row) : list Row :=
  filter (fun r => (max_month selected - 100 <? month_date_yyyymm r)%Z) selected.

(** The months the series of a selection run over. *)
Definition recent_months (selected : list Row) : list Z :=
  sorted_months (recent_rows selected).

End MetricsSpec.

Module RegionsSpec.
Import Py.

(** Whether a value of a column is a string. *)
Definition is_str (v : pyval) : bool :=
  match v with PStr _ => true | _ => false end.

End RegionsSpec.

(* ================================================================== *)
(** * Facts about the primitives *)
(* ================================================================== *)

Module PyFacts.
Import Py.
Local Open Scope Q_scope.

Lemma Qltb_lt (x y : Q) : Qltb x y = true <-> x < y.
Proof.
  unfold Qltb. rewrite negb_true_iff.
  split; intros H.
  - apply Qnot_le_lt. intros Hle. apply Qle_bool_iff in Hle. congruence.
  - destruct (Qle_bool y x) eqn:E; [|reflexivity].
    apply Qle_bool_iff in E. exfalso. exact (Qlt_not_le _ _ H E).
Qed.

Lemma Qltb_ge (x y : Q) : Qltb x y = false <-> y <= x.
Proof.
  unfold Qltb. rewrite negb_false_iff. apply Qle_bool_iff.
Qed.

#[export] Instance Qltb_comp : Proper (Qeq ==> Qeq ==> eq) Qltb.
Proof.
  intros x x' Hx y y' Hy. unfold Qltb. f_equal.
  destruct (Qle_bool y x) eqn:E, (Qle_bool y' x') eqn:E'; try reflexivity.
  - apply Qle_bool_iff in E. rewrite Hx, Hy in E. apply Qle_bool_iff in E. congruence.
  - apply Qle_bool_iff in E'. rewrite <- Hx, <- Hy in E'. apply Qle_bool_iff in E'. congruence.
Qed.

#[export] Instance round_half_even_comp : Proper (Qeq ==> eq) round_half_even.
Proof.
  intros x y H. unfold round_half_even.
  rewrite (Qfloor_comp _ _ H).
  assert (E : x - inject_Z (Qfloor y) == y - inject_Z (Qfloor y)) by (rewrite H; reflexivity).
  rewrite (Qcompare_comp _ _ E _ _ (Qeq_refl (1 # 2))). reflexivity.
Qed.

#[export] Instance round_comp : Proper (Qeq ==> eq ==> Qeq) round.
Proof.
  intros x y H n m <-. unfold round. rewrite H. reflexivity.
Qed.

Section SortingFacts.
Context {A : Type}.
Variable leb : A -> A -> bool.

Lemma insert_perm (x : A) (l : list A) : Permutation (insert leb x l) (x :: l).
Proof.
  induction l as [|y l IH]; simpl.
  - apply Permutation_refl.
  - destruct (leb x y).
    + apply Permutation_refl.
    + apply perm_trans with (y :: x :: l).
      * apply perm_skip. exact IH.
      * apply perm_swap.
Qed.

Lemma sorted_perm (l : list A) : Permutation (sorted leb l) l.
Proof.
  induction l as [|x l IH]; simpl.
  - apply perm_nil.
  - apply perm_trans with (x :: sorted leb l).
    + apply insert_perm.
    + apply perm_skip. exact IH.
Qed.

Lemma sorted_length (l : list A) : length (sorted leb l) = length l.
Proof. apply Permutation_length, sorted_perm. Qed.

Lemma sorted_in (l : list A) (x : A) : In x (sorted leb l) <-> In x l.
Proof.
  split; apply Permutation_in; [|apply Permutation_sym]; apply sorted_perm.
Qed.

Hypothesis leb_total : forall x y, leb x y = true \/ leb y x = true.
Hypothesis leb_trans : forall x y z, leb x y = true -> leb y z = true -> leb x z = true.

Let ordered (x y : A) : Prop := leb x y = true.

Lemma insert_sorted (x : A) (l : list A) :
  StronglySorted ordered l -> StronglySorted ordered (insert leb x l).
Proof.
  induction 1 as [|y l Hl IH Hy]; simpl.
  - constructor; constructor.
  - destruct (leb x y) eqn:E.
    + constructor; [constructor; assumption|].
      constructor; [exact E|].
      eapply Forall_impl; [|exact Hy]. intros z Hz. exact (leb_trans _ _ _ E Hz).
    + constructor; [exact IH|].
      assert (Hyx : ordered y x) by (destruct (leb_total x y); [congruence|assumption]).
      rewrite Forall_forall. intros z Hz.
      apply (Permutation_in _ (insert_perm x l)) in Hz. destruct Hz as [<-|Hz].
      * exact Hyx.
      * rewrite Forall_forall in Hy. apply Hy. exact Hz.
Qed.

Lemma sorted_sorted (l : list A) : StronglySorted ordered (sorted leb l).
Proof.
  induction l as [|x l IH]; simpl.
  - constructor.
  - apply insert_sorted. exact IH.
Qed.

End SortingFacts.

(** [sorted(l, key=..., reverse=True)] is a rearrangement of [l] whose
    keys never increase. *)
Lemma sorted_desc_perm {A} (key : A -> Q) (l : list A) :
  Permutation (sorted_desc key l) l.
Proof. apply sorted_perm. Qed.

Lemma sorted_desc_sorted {A} (key : A -> Q) (l : list A) :
  StronglySorted (fun a b => key b <= key a) (sorted_desc key l).
Proof.
  unfold sorted_desc.
  eapply StronglySorted_ind with
    (P := fun l' => StronglySorted (fun a b => key b <= key a) l')
    (R := fun a b => Qle_bool (key b) (key a) = true).
  - constructor.
  - intros a l' _ IH Ha. constructor; [exact IH|].
    eapply Forall_impl; [|exact Ha]. intros b Hb. apply Qle_bool_iff. exact Hb.
  - apply sorted_sorted.
    + intros x y. destruct (Qlt_le_dec (key x) (key y)) as [H|H].
      * right. apply Qle_bool_iff. apply Qlt_le_weak. exact H.
      * left. apply Qle_bool_iff. exact H.
    + intros x y z H1 H2. apply Qle_bool_iff in H1, H2. apply Qle_bool_iff.
      eapply Qle_trans; eassumption.
Qed.

(** The sort is stable: the results of one key keep their order. *)
Lemma insert_keeps_key_order {A} (key : A -> Q) (k : Q) (x : A) (l : list A) :
  filter (fun y => Qeq_bool (key y) k)
         (insert (fun a b => Qle_bool (key b) (key a)) x l)
  = filter (fun y => Qeq_bool (key y) k) (x :: l).
Proof.
  induction l as [|y l IH]; [reflexivity|].
  cbn [insert]. destruct (Qle_bool (key y) (key x)) eqn:E; [reflexivity|].
  cbn [filter] in *. rewrite IH.
  destruct (Qeq_bool (key x) k) eqn:Ex; [|reflexivity].
  destruct (Qeq_bool (key y) k) eqn:Ey; [|reflexivity].
  exfalso. apply Qeq_bool_iff in Ex, Ey.
  assert (Hle : Qle_bool (key y) (key x) = true).
  { apply Qle_bool_iff. rewrite Ex, Ey. apply Qle_refl. }
  congruence.
Qed.

Lemma sorted_desc_stable {A} (key : A -> Q) (k : Q) (l : list A) :
  filter (fun y => Qeq_bool (key y) k) (sorted_desc key l)
  = filter (fun y => Qeq_bool (key y) k) l.
Proof.
  unfold sorted_desc. induction l as [|x l IH]; [reflexivity|].
  cbn [sorted]. rewrite insert_keeps_key_order. cbn [filter]. rewrite IH. reflexivity.
Qed.

(** Ties of [round] go to the even neighbour. *)
Lemma round_ties_to_even :
  round (1 # 8) 2 == 12 # 100 /\ round (3 # 8) 2 == 38 # 100
  /\ round (- (1 # 8)) 2 == - (12 # 100) /\ round (2 # 3) 4 == 6667 # 10000.
Proof. repeat split; reflexivity. Qed.

Lemma StronglySorted_firstn {A} (R : A -> A -> Prop) (n : nat) (l : list A) :
  StronglySorted R l -> StronglySorted R (firstn n l).
Proof.
  revert l. induction n as [|n IH]; intros l H; simpl; [constructor|].
  destruct H as [|x l Hl Hx]; [constructor|].
  constructor; [apply IH; exact Hl|].
  rewrite Forall_forall in *. intros y Hy. apply Hx.
  rewrite <- (firstn_skipn n l). apply in_or_app. left. exact Hy.
Qed.

Lemma StronglySorted_map {A B} (R : A -> A -> Prop) (S : B -> B -> Prop)
    (f : A -> B) (l : list A) :
  (forall a b, R a b -> S (f a) (f b)) ->
  StronglySorted R l -> StronglySorted S (map f l).
Proof.
  intros HRS. induction 1 as [|x l Hl IH Hx]; simpl; constructor.
  - exact IH.
  - rewrite Forall_forall in *. intros y Hy.
    apply in_map_iff in Hy. destruct Hy as (a & <- & Ha). apply HRS, Hx, Ha.
Qed.

(** Slices with a positive count: the first [n] and the last [n]. *)
Lemma slice_to_pos {A} (l : list A) (n : Z) :
  (0 < n)%Z -> slice_to l n = firstn (Z.to_nat n) l.
Proof.
  intros H. unfold slice_to.
  destruct (0 <=? n)%Z eqn:E; [reflexivity|]. apply Z.leb_gt in E. lia.
Qed.

Lemma slice_from_neg {A} (l : list A) (n : Z) :
  (0 < n)%Z -> slice_from l (- n) = skipn (length l - Z.to_nat n) l.
Proof.
  intros H. unfold slice_from.
  destruct (0 <=? - n)%Z eqn:E; [apply Z.leb_le in E; lia|].
  f_equal. lia.
Qed.

(** Slices of a list that is not longer than the count: the whole list. *)
Lemma slice_to_short {A} (l : list A) (n : Z) :
  (Z.of_nat (length l) <= n)%Z -> slice_to l n = l.
Proof.
  intros H. unfold slice_to.
  destruct (0 <=? n)%Z eqn:E; [|apply Z.leb_gt in E; lia].
  apply firstn_all2. lia.
Qed.

Lemma slice_from_short {A} (l : list A) (n : Z) :
  (Z.of_nat (length l) <= n)%Z -> slice_from l (- n) = l.
Proof.
  intros H. unfold slice_from.
  destruct (0 <=? - n)%Z eqn:E.
  - apply Z.leb_le in E. replace (Z.to_nat (- n)) with 0%nat by lia. reflexivity.
  - replace (Z.to_nat (Z.of_nat (length l) + - n)) with 0%nat by lia. reflexivity.
Qed.

End PyFacts.

(* ================================================================== *)
(** * The baseline comparator: emitted results *)
(* ================================================================== *)

Module ComparatorFacts.
Import Py Comparator ComparatorSpec PyFacts.
Local Open Scope Q_scope.

Lemma process_region_unfold (df : DataFrame) (reg : pyval) :
  process_region df reg =
  match current_rows df reg with
  | [] => None
  | current_row :: _ =>
    if enough_history df reg current_row
    then if below_floor df reg current_row then None
         else Some (built_result df reg current_row)
    else None
  end.
Proof.
  unfold process_region, enough_history, below_floor, built_result.
  destruct (current_rows df reg); reflexivity.
Qed.

Lemma process_region_some (df : DataFrame) (reg : pyval) (r : Result) :
  process_region df reg = Some r ->
  exists current_row rest,
    current_rows df reg = current_row :: rest
    /\ enough_history df reg current_row = true
    /\ below_floor df reg current_row = false
    /\ r = built_result df reg current_row.
Proof.
  rewrite process_region_unfold.
  destruct (current_rows df reg) as [|row rest]; [discriminate|].
  destruct (enough_history df reg row) eqn:E1; [|discriminate].
  destruct (below_floor df reg row) eqn:E2; [discriminate|].
  intros [= <-]. exists row, rest. auto.
Qed.

Lemma process_region_region (df : DataFrame) (reg : pyval) (r : Result) :
  process_region df reg = Some r -> region r = reg.
Proof.
  intros H. apply process_region_some in H.
  destruct H as (row & rest & _ & _ & _ & ->). reflexivity.
Qed.

Lemma in_option_to_list {A} (o : option A) (a : A) :
  In a (option_to_list o) <-> o = Some a.
Proof.
  destruct o; simpl; split; intros H.
  - destruct H as [->|[]]. reflexivity.
  - left. congruence.
  - destruct H.
  - discriminate.
Qed.

(** Every emitted result is the one the loop body builds for its own
    region. *)
Lemma in_calculate_metrics (df : DataFrame) (rc : string) (r : Result) :
  In r (calculate_metrics df rc) -> process_region df (region r) = Some r.
Proof.
  unfold calculate_metrics.
  destruct (df_empty df); [intros []|].
  destruct (negb (rc =? region_column df)%string); [intros []|].
  rewrite in_flat_map. intros (reg & _ & Hin).
  apply in_option_to_list in Hin.
  rewrite (process_region_region _ _ _ Hin). exact Hin.
Qed.

(** No division of the loop body has a zero divisor once the guards are
    passed: the model's total division is never used at zero. *)
Lemma divisors_positive (df : DataFrame) (reg : pyval) (row : Row) :
  enough_history df reg row = true ->
  below_floor df reg row = false ->
  0 < active_listing_count row
  /\ 0 < mean (valid_active df reg)
  /\ 0 < mean (valid_pending df reg)
  /\ 0 < mean (valid_pending df reg) / mean (valid_active df reg).
Proof.
  unfold enough_history, below_floor. intros H1 H2.
  repeat rewrite andb_true_iff in H1. destruct H1 as [[[_ _] Ha] _].
  repeat rewrite orb_false_iff in H2. destruct H2 as [[[_ _] Hma] Hmp].
  apply Qltb_lt in Ha. apply Qltb_ge in Hma, Hmp.
  assert (P30 : 0 < 30) by reflexivity.
  assert (A : 0 < mean (valid_active df reg)) by exact (Qlt_le_trans _ _ _ P30 Hma).
  assert (P : 0 < mean (valid_pending df reg)) by exact (Qlt_le_trans _ _ _ P30 Hmp).
  repeat split; auto.
  apply Qlt_shift_div_l; auto. rewrite Qmult_0_l. exact P.
Qed.


(** C2.  A region whose baseline has fewer than three positive points for
    active or for pending, whose current active or pending count is not
    positive, or one of whose current counts or baseline means is below 30,
    is skipped: the loop body yields nothing for it and no emitted result
    carries it.  The comparator returns only a list of results, so a skip
    leaves no trace in the response. *)
Theorem skipped_regions (df : DataFrame) (region_col : string) (reg : pyval)
    (current_row : Row) (rest : list Row) :
  current_rows df reg = current_row :: rest ->
  (length (valid_active df reg) < 3)%nat
  \/ (length (valid_pending df reg) < 3)%nat
  \/ active_listing_count current_row <= 0
  \/ pending_listing_count current_row <= 0
  \/ active_listing_count current_row < 30
  \/ pending_listing_count current_row < 30
  \/ mean (valid_active df reg) < 30
  \/ mean (valid_pending df reg) < 30 ->
  process_region df reg = None
  /\ forall r, In r (calculate_metrics df region_col) -> region r <> reg.
Proof.
  intros Hrows Hskip.
  assert (Hnone : process_region df reg = None).
  { rewrite process_region_unfold, Hrows.
    destruct (enough_history df reg current_row) eqn:E1; [|reflexivity].
    destruct (below_floor df reg current_row) eqn:E2; [reflexivity|].
    exfalso.
    unfold enough_history in E1. repeat rewrite andb_true_iff in E1.
    destruct E1 as [[[Ea Ep] Eca] Ecp].
    apply Nat.leb_le in Ea, Ep. apply Qltb_lt in Eca, Ecp.
    unfold below_floor in E2. repeat rewrite orb_false_iff in E2.
    destruct E2 as [[[Fa Fp] Fma] Fmp].
    apply Qltb_ge in Fa, Fp, Fma, Fmp.
    destruct Hskip as [H|[H|[H|[H|[H|[H|[H|H]]]]]]];
      try lia;
      try (exact (Qlt_not_le _ _ Eca H));
      try (exact (Qlt_not_le _ _ Ecp H));
      try (exact (Qlt_not_le _ _ H Fa));
      try (exact (Qlt_not_le _ _ H Fp));
      try (exact (Qlt_not_le _ _ H Fma));
      try (exact (Qlt_not_le _ _ H Fmp)). }
  split; [exact Hnone|].
  intros r Hin Heq. apply in_calculate_metrics in Hin.
  rewrite Heq, Hnone in Hin. discriminate.
Qed.

Lemma fold_left_max_in (l : list Z) (a : Z) :
  fold_left Z.max l a = a \/ In (fold_left Z.max l a) l.
Proof.
  revert a. induction l as [|x l IH]; intros a; simpl; [now left|].
  destruct (IH (Z.max a x)) as [H|H].
  - rewrite H. destruct (Z.max_spec a x) as [[_ ->]|[_ ->]]; auto.
  - auto.
Qed.

(** The latest month is the month of some row. *)
Lemma latest_month_in (df : DataFrame) :
  rows df <> [] -> exists r, In r (rows df) /\ month_date_yyyymm r = latest_month df.
Proof.
  unfold latest_month, max_month.
  destruct (rows df) as [|r l]; [congruence|]. intros _.
  destruct (fold_left_max_in (map month_date_yyyymm l) (month_date_yyyymm r)) as [H|H].
  - exists r. split; [now left|]. symmetry. exact H.
  - apply in_map_iff in H. destruct H as (r' & H1 & H2).
    exists r'. split; [now right|]. exact H1.
Qed.

Lemma unique_constant (s : string) (l : list pyval) :
  l <> [] -> Forall (eq (PStr s)) l -> unique l = [PStr s].
Proof.
  induction l as [|x l IH]; [congruence|]. intros _ H.
  inversion H as [|? ? Hx Hl]; subst. simpl.
  destruct l as [|y l']; [reflexivity|].
  rewrite IH by (congruence || assumption). simpl.
  rewrite String.eqb_refl. reflexivity.
Qed.

(** On a dataset with a single named region the comparator returns what
    the loop body yields for that region. *)
Lemma calculate_metrics_single_region (df : DataFrame) (s : string) :
  rows df <> [] ->
  Forall (fun r => region_of r = PStr s) (rows df) ->
  calculate_metrics df (region_column df)
  = option_to_list (process_region df (PStr s)).
Proof.
  intros Hne Hall. unfold calculate_metrics.
  assert (E : df_empty df = false).
  { unfold df_empty. destruct (rows df); congruence. }
  rewrite E, String.eqb_refl. simpl negb. cbv iota.
  rewrite (unique_constant s).
  - simpl. apply app_nil_r.
  - destruct (latest_month_in df Hne) as (r & Hin & Hm).
    intros Hnil.
    assert (Hc : In r (current_data df)).
    { unfold current_data. apply filter_In. split; [exact Hin|].
      apply Z.eqb_eq. exact Hm. }
    apply (in_map region_of) in Hc. rewrite Hnil in Hc. destruct Hc.
  - apply Forall_forall. intros v Hv.
    apply in_map_iff in Hv. destruct Hv as (r & <- & Hr).
    unfold current_data in Hr. apply filter_In in Hr. destruct Hr as [Hr _].
    rewrite Forall_forall in Hall. symmetry. apply Hall. exact Hr.
Qed.

(** C3 (as stated, refuted).  On the metro dataset [small_metro], one
    region with 50 active and 40 pending listings in the latest month and
    four baseline months averaging 40 and 20, the comparator emits
    nothing. *)
Lemma end_to_end_small_metro_skipped :
  (exists rest,
     current_rows Samples.small_metro (PStr "Metro A")
     = Samples.metro_row 202403 50 40 :: rest)
  /\ length (valid_active Samples.small_metro (PStr "Metro A")) = 4%nat
  /\ length (valid_pending Samples.small_metro (PStr "Metro A")) = 4%nat
  /\ mean (valid_active Samples.small_metro (PStr "Metro A")) == 40
  /\ mean (valid_pending Samples.small_metro (PStr "Metro A")) == 20
  /\ ~ exists r,
        In r (calculate_metrics Samples.small_metro (Metrics.REGION_COLUMNS Metrics.metro)).
Proof.
  split; [exists []; reflexivity|].
  repeat (split; [reflexivity|]).
  intros (r & Hin). vm_compute in Hin. exact Hin.
Qed.

(** C3 (amended).  On a metro dataset with one region whose baseline has
    at least three positive points for active and for pending: when the
    latest-month row has active 100 and pending 80 and the baseline means
    are 80 and 40, the comparator emits exactly one result, for that
    region, with changePercentage 25, pendingChange 100, currentRatio 0.8,
    historicalRatio 0.5 and ratioChange 60; when the row has 50 and 40 and
    the baseline means are 40 and 20, it emits nothing, the baseline
    pending mean being below 30. *)
Theorem end_to_end_metro (df : DataFrame) (s : string)
    (current_row : Row) (rest : list Row) :
  region_column df = Metrics.REGION_COLUMNS Metrics.metro ->
  Forall (fun r => region_of r = PStr s) (rows df) ->
  current_rows df (PStr s) = current_row :: rest ->
  (3 <= length (valid_active df (PStr s)))%nat ->
  (3 <= length (valid_pending df (PStr s)))%nat ->
  (active_listing_count current_row == 100 ->
   pending_listing_count current_row == 80 ->
   mean (valid_active df (PStr s)) == 80 ->
   mean (valid_pending df (PStr s)) == 40 ->
   exists r,
     calculate_metrics df (Metrics.REGION_COLUMNS Metrics.metro) = [r]
     /\ region r = PStr s
     /\ changePercentage r == 25
     /\ pendingChange r == 100
     /\ currentRatio r == 8 # 10
     /\ historicalRatio r == 1 # 2
     /\ ratioChange r == 60)
  /\ (active_listing_count current_row == 50 ->
      pending_listing_count current_row == 40 ->
      mean (valid_active df (PStr s)) == 40 ->
      mean (valid_pending df (PStr s)) == 20 ->
      calculate_metrics df (Metrics.REGION_COLUMNS Metrics.metro) = []).
Proof.
  intros Hcol Hall Hrows Hva Hvp.
  assert (Hne : rows df <> []).
  { intros Hnil. unfold current_rows, current_data in Hrows.
    rewrite Hnil in Hrows. discriminate. }
  rewrite <- Hcol, (calculate_metrics_single_region df s Hne Hall).
  rewrite process_region_unfold, Hrows.
  apply Nat.leb_le in Hva, Hvp.
  split; intros Ha Hp Hma Hmp.
  - assert (E1 : enough_history df (PStr s) current_row = true).
    { unfold enough_history. rewrite Hva, Hvp, Ha, Hp. reflexivity. }
    assert (E2 : below_floor df (PStr s) current_row = false).
    { unfold below_floor. rewrite Ha, Hp, Hma, Hmp. reflexivity. }
    rewrite E1, E2. eexists. split; [reflexivity|].
    unfold built_result; simpl.
    rewrite Ha, Hp, Hma, Hmp.
    repeat split; reflexivity.
  - assert (E2 : below_floor df (PStr s) current_row = true).
    { unfold below_floor. rewrite Ha, Hp, Hma, Hmp. reflexivity. }
    rewrite E2. destruct (enough_history df (PStr s) current_row); reflexivity.
Qed.

(** The formula is over the unrounded current value and baseline mean:
    recomputed from the emitted, rounded fields [currentActive] and
    [historicalActive] it gives another number on [thirds_metro]. *)
Lemma formula_over_emitted_fields_differs :
  exists r,
    calculate_metrics Samples.thirds_metro "cbsa_title" = [r]
    /\ historicalActive r == 10033 # 100
    /\ changePercentage r == 4950 # 100
    /\ round ((currentActive r - historicalActive r) / historicalActive r * 100) 2
       == 4951 # 100.
Proof.
  eexists. split; [vm_compute; reflexivity|]. repeat split; reflexivity.
Qed.


Lemma skipped_regions_witness :
  process_region Samples.short_history (PStr "Metro A") = None
  /\ forall r, In r (calculate_metrics Samples.short_history "cbsa_title") ->
               region r <> PStr "Metro A".
Proof.
  apply (skipped_regions Samples.short_history "cbsa_title" (PStr "Metro A")
           (Samples.metro_row 202403 100 80) []).
  - reflexivity.
  - left. vm_compute. lia.
Defined.

Lemma end_to_end_metro_witness :
  exists r,
    calculate_metrics Samples.large_metro (Metrics.REGION_COLUMNS Metrics.metro) = [r]
    /\ region r = PStr "Metro A"
    /\ changePercentage r == 25
    /\ pendingChange r == 100
    /\ currentRatio r == 8 # 10
    /\ historicalRatio r == 1 # 2
    /\ ratioChange r == 60.
Proof.
  apply (proj1 (end_to_end_metro Samples.large_metro "Metro A"
                  (Samples.metro_row 202403 100 80) []
                  eq_refl
                  ltac:(repeat constructor)
                  eq_refl
                  ltac:(vm_compute; lia)
                  ltac:(vm_compute; lia)));
    reflexivity.
Defined.

End ComparatorFacts.

(* ================================================================== *)
(** * The ranker: top and bottom *)
(* ================================================================== *)

Module RankerFacts.
Import Py Ranker RankerSpec PyFacts.
Local Open Scope Q_scope.

Lemma selects_key_entry (metric : string) key entry :
  selects metric key entry -> key = key_of metric /\ entry = entry_of metric.
Proof. intros []; split; reflexivity. Qed.

Lemma get_top_bottom_eq (data : list Comparator.Result) (metric : string) (n : Z) :
  get_top_bottom data metric n
  = (map (entry_of metric) (slice_to (sorted_desc (key_of metric) data) n),
     map (entry_of metric) (slice_from (sorted_desc (key_of metric) data) (- n))).
Proof.
  unfold get_top_bottom, key_of, entry_of.
  destruct (String.eqb metric "active"); [reflexivity|].
  destruct (String.eqb metric "pending"); reflexivity.
Qed.

Lemma entry_of_key (metric : string) (r : Comparator.Result) :
  changePercentage (entry_of metric r) = key_of metric r.
Proof.
  unfold key_of, entry_of.
  destruct (String.eqb metric "active"); [reflexivity|].
  destruct (String.eqb metric "pending"); reflexivity.
Qed.

(** With [n = 0] the slice [sorted_data[-0:]] is the whole list: the
    bottom is then every entry, not none. *)
Lemma get_top_bottom_zero (data : list Comparator.Result) (metric : string) :
  get_top_bottom data metric 0
  = ([], map (entry_of metric) (sorted_desc (key_of metric) data)).
Proof. rewrite get_top_bottom_eq. reflexivity. Qed.

(** C6.  For a selector among active, pending and ratio and a positive
    count [n], the ranker sorts the results descending by the selector's
    percent-change field (the sorted list is a rearrangement of the input
    whose keys never increase), returns the projections of its first [n]
    entries as top and of its last [n] entries, in the same order, as
    bottom; with the default count on 25 results, top and bottom have 10
    entries each, the keys of top never increase and its first entry has
    the largest percent change of all results. *)
Theorem ranker_top_bottom (data : list Comparator.Result) (metric : string)
    (key : Comparator.Result -> Q) (entry : Comparator.Result -> Entry) (n : Z) :
  selects metric key entry ->
  (0 < n)%Z ->
  let sorted_data := sorted_desc key data in
  Permutation sorted_data data
  /\ StronglySorted (fun a b => key b <= key a) sorted_data
  /\ (forall r, changePercentage (entry r) = key r)
  /\ get_top_bottom data metric n
     = (map entry (firstn (Z.to_nat n) sorted_data),
        map entry (skipn (length sorted_data - Z.to_nat n) sorted_data))
  /\ (length data = 25%nat ->
      let top := fst (get_top_bottom data metric default_n) in
      let bottom := snd (get_top_bottom data metric default_n) in
      length top = 10%nat
      /\ length bottom = 10%nat
      /\ StronglySorted (fun a b => changePercentage b <= changePercentage a) top
      /\ exists first rest,
           top = first :: rest
           /\ forall r, In r data -> key r <= changePercentage first).
Proof.
  intros Hsel Hn sorted_data.
  destruct (selects_key_entry _ _ _ Hsel) as [-> ->].
  assert (Hperm : Permutation sorted_data data) by apply sorted_desc_perm.
  assert (Hsorted : StronglySorted (fun a b => key_of metric b <= key_of metric a) sorted_data)
    by apply sorted_desc_sorted.
  split; [exact Hperm|]. split; [exact Hsorted|].
  split; [apply entry_of_key|].
  split.
  - rewrite get_top_bottom_eq. fold sorted_data.
    rewrite slice_to_pos, slice_from_neg by exact Hn. reflexivity.
  - intros Hlen. cbv zeta.
    rewrite get_top_bottom_eq. fold sorted_data. unfold default_n. cbn [fst snd].
    rewrite slice_to_pos, slice_from_neg by lia.
    assert (Hslen : length sorted_data = 25%nat)
      by (rewrite (Permutation_length Hperm); exact Hlen).
    split; [rewrite length_map, length_firstn, Hslen; reflexivity|].
    split; [rewrite length_map, length_skipn, Hslen; reflexivity|].
    split.
    + apply StronglySorted_map with (R := fun a b => key_of metric b <= key_of metric a).
      * intros a b Hab. rewrite !entry_of_key. exact Hab.
      * apply StronglySorted_firstn. exact Hsorted.
    + destruct sorted_data as [|x rest] eqn:E; [discriminate|].
      exists (entry_of metric x), (map (entry_of metric) (firstn 9 rest)).
      split; [reflexivity|].
      intros r Hr. rewrite entry_of_key.
      apply (Permutation_in _ (Permutation_sym Hperm)) in Hr.
      destruct Hr as [<-|Hr]; [apply Qle_refl|].
      inversion Hsorted as [|? ? _ Hx]; subst.
      rewrite Forall_forall in Hx. apply Hx. exact Hr.
Qed.

(** C10.  When the input has at most [n] results, top and bottom are both
    the projection of the whole sorted list: every result is in both, and
    on a non-empty input the two lists share an entry. *)
Theorem short_input_top_is_bottom (data : list Comparator.Result) (metric : string) (n : Z) :
  (Z.of_nat (length data) <= n)%Z ->
  let everything := map (entry_of metric) (sorted_desc (key_of metric) data) in
  let top := fst (get_top_bottom data metric n) in
  let bottom := snd (get_top_bottom data metric n) in
  top = everything
  /\ bottom = everything
  /\ length top = length data
  /\ (forall r, In r data -> In (entry_of metric r) top /\ In (entry_of metric r) bottom)
  /\ (data <> [] -> exists e, In e top /\ In e bottom).
Proof.
  intros Hlen. cbv zeta. rewrite get_top_bottom_eq. cbn [fst snd].
  assert (Hs : (Z.of_nat (length (sorted_desc (key_of metric) data)) <= n)%Z).
  { unfold sorted_desc. rewrite sorted_length. exact Hlen. }
  rewrite slice_to_short, slice_from_short by exact Hs.
  assert (Hall : forall r, In r data ->
            In (entry_of metric r) (map (entry_of metric) (sorted_desc (key_of metric) data))).
  { intros r Hr. apply in_map. unfold sorted_desc. apply sorted_in. exact Hr. }
  repeat split; auto.
  - rewrite length_map. unfold sorted_desc. apply sorted_length.
  - intros Hne. destruct data as [|r data']; [congruence|].
    exists (entry_of metric r). split; apply Hall; left; reflexivity.
Qed.

Lemma ranker_top_bottom_witness :
  get_top_bottom Samples.three_results "pending" 2
  = (map pending_entry
         (firstn 2 (sorted_desc Comparator.pendingChange Samples.three_results)),
     map pending_entry
         (skipn 1 (sorted_desc Comparator.pendingChange Samples.three_results))).
Proof.
  exact (proj1 (proj2 (proj2 (proj2
           (ranker_top_bottom Samples.three_results "pending" _ _ 2
              selects_pending ltac:(lia)))))).
Defined.

Lemma short_input_top_is_bottom_witness :
  fst (get_top_bottom Samples.three_results "active" 10)
  = map (entry_of "active") (sorted_desc (key_of "active") Samples.three_results)
  /\ snd (get_top_bottom Samples.three_results "active" 10)
     = map (entry_of "active") (sorted_desc (key_of "active") Samples.three_results).
Proof.
  pose proof (short_input_top_is_bottom Samples.three_results "active" 10
                ltac:(simpl; lia)) as H.
  split; [exact (proj1 H)|exact (proj1 (proj2 H))].
Defined.

End RankerFacts.

(* ================================================================== *)
(** * The metrics handler at postal-code granularity *)
(* ================================================================== *)

Module MetricsFacts.
Import Py Comparator Metrics PyFacts.
Local Open Scope Q_scope.

Lemma filter_none {A} (f : A -> bool) (l : list A) :
  (forall x, In x l -> f x = false) -> filter f l = [].
Proof.
  induction l as [|x l IH]; intros H; simpl; [reflexivity|].
  rewrite (H x (or_introl eq_refl)). apply IH. intros y Hy. apply H. now right.
Qed.




(** After the fetch at postal-code granularity every region value is a
    string. *)
Lemma zip_regions_are_strings (response : option (list RawRow)) (r : Row) :
  In r (rows (fetch_realtor_data zip response)) -> exists s, region_of r = PStr s.
Proof.
  unfold fetch_realtor_data. destruct response as [raw|]; [|intros []].
  destruct (map dropna (read_chunks chunksize raw)) as [|c cs]; [intros []|].
  cbn [rows]. intros H. apply in_map_iff in H. destruct H as (r0 & <- & _).
  eexists. reflexivity.
Qed.

(** C9.  At postal-code granularity the handler returns the empty object
    for every region string and every fetched table: the cleaner leaves
    only strings in the region column, the handler compares the column with
    the integer [int(region)], no row is selected, and a region string that
    [int] rejects ends in the handler's exception branch. *)
Theorem zip_metrics_always_empty (py_int : string -> option Z) (region : string)
    (response : option (list RawRow)) :
  (forall r, In r (rows (fetch_realtor_data zip response)) ->
             exists s, region_of r = PStr s)
  /\ (forall z, filter (fun r => py_eq (region_of r) (PInt z))
                       (rows (fetch_realtor_data zip response)) = [])
  /\ get_metrics py_int zip region response = EmptyObject.
Proof.
  assert (Hstr := zip_regions_are_strings response).
  assert (Hnone : forall z, filter (fun r => py_eq (region_of r) (PInt z))
                              (rows (fetch_realtor_data zip response)) = []).
  { intros z. apply filter_none. intros r Hr.
    destruct (Hstr r Hr) as (s & ->). reflexivity. }
  split; [exact Hstr|]. split; [exact Hnone|].
  unfold get_metrics.
  destruct (df_empty (fetch_realtor_data zip response)); [reflexivity|].
  unfold region_key. destruct (py_int region) as [z|]; [|reflexivity].
  cbn [option_map]. rewrite Hnone. reflexivity.
Qed.

(** The table of [zip_response] is not empty and holds the postal code
    asked for, and the answer is empty all the same; the same rows fetched
    at metro granularity give the series. *)
Lemma zip_sample_empty :
  df_empty (fetch_realtor_data zip Samples.zip_response) = false
  /\ Samples.parse_digits "02139" = Some 2139%Z
  /\ get_metrics Samples.parse_digits zip "02139" Samples.zip_response = EmptyObject.
Proof. repeat split. Qed.

Lemma metro_sample_not_empty :
  exists m,
    get_metrics Samples.parse_digits metro "02139" Samples.zip_response = MetricsObject m
    /\ map month (m_active_listing_count m) = ["2024-02"; "2024-03"]%string
    /\ map current (m_pending_ratio m) = [Some (6364 # 10000); Some (8000 # 10000)].
Proof. eexists. split; [reflexivity|]. split; reflexivity. Qed.

End MetricsFacts.

(* ================================================================== *)
(** * The affordability merger and summary: regions without a gap *)
(* ================================================================== *)

Module AffordabilityFacts.
Import Py Affordability AffordabilitySpec PyFacts.
Local Open Scope Q_scope.


(** The merger's output in terms of what the loop collected. *)
Lemma calculate_affordability_metrics_cases (homeowner_df renter_df : WideFrame) :
  calculate_affordability_metrics homeowner_df renter_df = []
  \/ exists latest_month,
       calculate_affordability_metrics homeowner_df renter_df
       = sorted_desc gap_key (filter has_gap (collected homeowner_df renter_df latest_month))
         ++ filter (fun r => negb (has_gap r)) (collected homeowner_df renter_df latest_month).
Proof.
  unfold calculate_affordability_metrics.
  destruct (wide_empty homeowner_df || wide_empty renter_df); [now left|].
  destruct (last_opt _) as [latest_month|]; [|now left].
  right. exists latest_month. reflexivity.
Qed.


Lemma has_gap_true (r : Result) : has_gap r = true <-> affordabilityGap r <> None.
Proof.
  unfold has_gap. destruct (affordabilityGap r); split; congruence.
Qed.






Lemma in_skipn {A} (n : nat) (l : list A) (x : A) : In x (skipn n l) -> In x l.
Proof.
  intros H. rewrite <- (firstn_skipn n l). apply in_or_app. right. exact H.
Qed.

Lemma in_firstn {A} (n : nat) (l : list A) (x : A) : In x (firstn n l) -> In x l.
Proof.
  intros H. rewrite <- (firstn_skipn n l). apply in_or_app. left. exact H.
Qed.

Lemma in_slice_from {A} (l : list A) (start : Z) (x : A) :
  In x (slice_from l start) -> In x l.
Proof.
  unfold slice_from. destruct (0 <=? start)%Z; apply in_skipn.
Qed.

(** The most-affordable list is taken from the results with a gap. *)
Lemma most_affordable_has_gap (homeowner_df renter_df : WideFrame) (res : Result) :
  In res (mostAffordable (get_affordability_summary homeowner_df renter_df)) ->
  affordabilityGap res <> None.
Proof.
  unfold get_affordability_summary.
  destruct (wide_empty homeowner_df || wide_empty renter_df); [intros []|].
  destruct (calculate_affordability_metrics homeowner_df renter_df) as [|r0 results];
    [intros []|].
  cbn [mostAffordable]. intros Hin.
  apply in_rev, in_slice_from in Hin.
  unfold sorted_desc in Hin. apply sorted_in in Hin.
  apply filter_In in Hin. apply has_gap_true. tauto.
Qed.

(** The least-affordable list is the head of the sorted results followed
    by the results without a gap: one of these is listed only when fewer
    than ten results have a gap. *)
Lemma least_affordable_gapless_few (homeowner_df renter_df : WideFrame) (res : Result) :
  In res (leastAffordable (get_affordability_summary homeowner_df renter_df)) ->
  affordabilityGap res = None ->
  (length (filter has_gap (calculate_affordability_metrics homeowner_df renter_df)) < 10)%nat.
Proof.
  unfold get_affordability_summary.
  destruct (wide_empty homeowner_df || wide_empty renter_df); [intros []|].
  destruct (calculate_affordability_metrics homeowner_df renter_df) as [|r0 results];
    [intros []|].
  cbn [leastAffordable]. set (all := r0 :: results).
  rewrite (slice_to_pos _ 10) by lia.
  rewrite firstn_app. intros Hin Hgap.
  apply in_app_or in Hin. destruct Hin as [Hin|Hin].
  - exfalso. apply in_firstn in Hin.
    unfold sorted_desc in Hin. apply sorted_in in Hin.
    apply filter_In in Hin. destruct Hin as [_ Hin].
    apply has_gap_true in Hin. contradiction.
  - unfold sorted_desc in Hin. rewrite sorted_length in Hin.
    destruct (Z.to_nat 10 - length (filter has_gap all))%nat eqn:E; [destruct Hin|].
    change (Z.to_nat 10) with 10%nat in E. lia.
Qed.

(** C5 (the code at the failing input).  The only region has a renter
    value and no homeowner value; its result has no gap and is the
    least-affordable list. *)
Lemma least_affordable_lists_gapless :
  leastAffordable (get_affordability_summary Samples.homeowner_missing Samples.renter_one)
  = [ {| region := "Boise, ID";
         homeownerAffordability := None;
         renterAffordability := 1 # 4;
         affordabilityGap := None |} ]
  /\ mostAffordable (get_affordability_summary Samples.homeowner_missing Samples.renter_one)
     = [].
Proof. split; reflexivity. Qed.

End AffordabilityFacts.

(* ================================================================== *)
(** * The trend estimator *)
(* ================================================================== *)

Module TrendFacts.
Import Py Trend TrendSpec PyFacts.
Local Open Scope Q_scope.

Lemma valid_from_cons (start : nat) (x : option float) (data : list (option float)) :
  valid_from start (x :: data)
  = match x with
    | Some (Affordability.Fin q) => [(start, q)]
    | _ => []
    end ++ valid_from (S start) data.
Proof. reflexivity. Qed.

Lemma valid_from_length (start : nat) (data : list (option float)) :
  length (valid_from start data) = count_valid data.
Proof.
  revert start. induction data as [|x data IH]; intros start; [reflexivity|].
  rewrite valid_from_cons, length_app, IH. unfold count_valid. simpl.
  destruct x as [[|q]|]; reflexivity.
Qed.

Lemma valid_pairs_length (data : list (option float)) :
  length (valid_pairs data) = count_valid data.
Proof. apply (valid_from_length 0). Qed.



Lemma all_none_spec (data : list (option float)) :
  length (all_none data) = length data /\ Forall (eq None) (all_none data).
Proof.
  unfold all_none. split; [apply repeat_length|].
  apply Forall_forall. intros x Hx. symmetry. exact (repeat_spec _ _ _ Hx).
Qed.

(** C7.  On an input with fewer than three points that are neither
    [None] nor missing numbers, the estimator returns [None] at every
    position of a list as long as the input. *)
Theorem too_few_points_all_none (data : list (option float)) :
  (count_valid data < 3)%nat ->
  calculate_regression_trend data = repeat None (length data)
  /\ length (calculate_regression_trend data) = length data
  /\ Forall (eq None) (calculate_regression_trend data).
Proof.
  intros Hfew.
  assert (E : calculate_regression_trend data = all_none data).
  { unfold calculate_regression_trend.
    destruct (length data <? 3)%nat; [reflexivity|].
    rewrite valid_pairs_length.
    destruct (count_valid data <? 3)%nat eqn:E; [reflexivity|].
    apply Nat.ltb_ge in E. lia. }
  rewrite E. split; [reflexivity|]. apply all_none_spec.
Qed.

Lemma too_few_points_all_none_witness :
  calculate_regression_trend
    [None; Some Affordability.NaN; Some (Affordability.Fin 1); Some (Affordability.Fin 2)]
  = [None; None; None; None].
Proof.
  exact (proj1 (too_few_points_all_none
                  [None; Some Affordability.NaN;
                   Some (Affordability.Fin 1); Some (Affordability.Fin 2)]
                  ltac:(vm_compute; lia))).
Defined.




















Lemma StronglySorted_skipn {A} (R : A -> A -> Prop) (n : nat) (l : list A) :
  StronglySorted R l -> StronglySorted R (skipn n l).
Proof.
  revert l. induction n as [|n IH]; intros l H; [exact H|].
  destruct H as [|x l Hl _]; [constructor|]. simpl. apply IH. exact Hl.
Qed.


(** The pairs the fit uses: the last six valid pairs, or all of them when
    there are fewer. *)
Lemma used_pairs (data : list (option float)) :
  slice_from (valid_pairs data) (-6)
  = skipn (count_valid data - 6) (valid_pairs data).
Proof.
  rewrite <- valid_pairs_length. apply (slice_from_neg _ 6). lia.
Qed.




End TrendFacts.

(* ================================================================== *)
(** * Rounding keeps the order *)
(* ================================================================== *)

Module RoundFacts.
Import Py PyFacts.
Local Open Scope Q_scope.

Lemma round_half_even_bounds (y : Q) :
  (Qfloor y <= round_half_even y <= Qfloor y + 1)%Z.
Proof.
  unfold round_half_even.
  destruct (Qcompare (y - inject_Z (Qfloor y)) (1 # 2)); [destruct (Z.even _)| |]; lia.
Qed.

Lemma round_half_even_mono (x y : Q) :
  x <= y -> (round_half_even x <= round_half_even y)%Z.
Proof.
  intros Hxy. pose proof (Qfloor_resp_le _ _ Hxy) as Hf.
  destruct (Z.eq_dec (Qfloor x) (Qfloor y)) as [E|N].
  - unfold round_half_even. rewrite E.
    destruct (Qcompare_spec (x - inject_Z (Qfloor y)) (1 # 2)) as [Cx|Cx|Cx];
      destruct (Qcompare_spec (y - inject_Z (Qfloor y)) (1 # 2)) as [Cy|Cy|Cy];
      try (destruct (Z.even (Qfloor y))); try lia; exfalso; lra.
  - pose proof (round_half_even_bounds x). pose proof (round_half_even_bounds y). lia.
Qed.

Lemma round_half_even_Z (z : Z) : round_half_even (inject_Z z) = z.
Proof.
  unfold round_half_even. rewrite Qfloor_Z.
  assert (E : inject_Z z - inject_Z z == 0) by ring.
  rewrite (Qcompare_comp _ _ E _ _ (Qeq_refl (1 # 2))). reflexivity.
Qed.

Lemma scale_pos (n : nat) : 0 < inject_Z (10 ^ Z.of_nat n).
Proof.
  change 0 with (inject_Z 0). rewrite <- Zlt_Qlt. apply Z.pow_pos_nonneg; lia.
Qed.

(** [round] never reverses an order. *)
Lemma round_mono (x y : Q) (n : nat) : x <= y -> round x n <= round y n.
Proof.
  intros H. unfold round. pose proof (scale_pos n) as Hs.
  apply Qmult_le_compat_r.
  - rewrite <- Zle_Qle. apply round_half_even_mono.
    apply Qmult_le_compat_r; [exact H|apply Qlt_le_weak, Hs].
  - apply Qinv_le_0_compat, Qlt_le_weak, Hs.
Qed.

(** [round] leaves an integer as it is. *)
Lemma round_Z (z : Z) (n : nat) : round (inject_Z z) n == inject_Z z.
Proof.
  unfold round. pose proof (scale_pos n) as Hs.
  rewrite <- inject_Z_mult, round_half_even_Z, inject_Z_mult.
  field. intros E. rewrite E in Hs. discriminate.
Qed.

Lemma round_ge_Z (z : Z) (x : Q) (n : nat) : inject_Z z <= x -> inject_Z z <= round x n.
Proof.
  intros H. rewrite <- (round_Z z n). apply round_mono. exact H.
Qed.

End RoundFacts.

(* ================================================================== *)
(** * The baseline comparator: which regions are emitted *)
(* ================================================================== *)

Module ComparatorCoverage.
Import Py Comparator ComparatorSpec CoverageSpec PyFacts ComparatorFacts RoundFacts.
Local Open Scope Q_scope.

Lemma same_value_refl (v : pyval) : same_value v v = true.
Proof.
  destruct v; simpl; [apply String.eqb_refl|apply Z.eqb_refl|reflexivity].
Qed.


Lemma same_value_eq (a b : pyval) : same_value a b = true -> a = b.
Proof.
  destruct a, b; simpl; try discriminate; try reflexivity.
  - intros H. apply String.eqb_eq in H. congruence.
  - intros H. apply Z.eqb_eq in H. congruence.
Qed.

Lemma unique_in (l : list pyval) (v : pyval) : In v (unique l) <-> In v l.
Proof.
  induction l as [|x l IH]; simpl; [tauto|].
  rewrite filter_In, IH. split.
  - intros [H|[H _]]; auto.
  - intros [H|H]; [now left|].
    destruct (same_value x v) eqn:E.
    + left. apply same_value_eq. exact E.
    + right. split; [exact H|reflexivity].
Qed.

Lemma unique_NoDup (l : list pyval) : NoDup (unique l).
Proof.
  induction l as [|x l IH]; simpl; constructor.
  - rewrite filter_In. intros [_ H]. rewrite same_value_refl in H. discriminate.
  - apply NoDup_filter. exact IH.
Qed.

Lemma regions_of_results (df : DataFrame) (regs : list pyval) :
  NoDup regs ->
  NoDup (map region (flat_map (fun reg => option_to_list (process_region df reg)) regs))
  /\ incl (map region (flat_map (fun reg => option_to_list (process_region df reg)) regs))
          regs.
Proof.
  induction 1 as [|reg regs Hnot Hnd [IH1 IH2]]; simpl.
  - split; [constructor|intros x []].
  - destruct (process_region df reg) as [r|] eqn:E; simpl.
    + rewrite (process_region_region _ _ _ E). split.
      * constructor; [|exact IH1]. intros Hin. apply Hnot, IH2, Hin.
      * intros x [<-|Hx]; [now left|right; apply IH2, Hx].
    + split; [exact IH1|]. intros x Hx. right. apply IH2, Hx.
Qed.

Lemma calculate_metrics_regions (df : DataFrame) (region_col : string) :
  NoDup (map region (calculate_metrics df region_col))
  /\ incl (map region (calculate_metrics df region_col))
          (map region_of (current_data df)).
Proof.
  unfold calculate_metrics.
  destruct (df_empty df); [split; [constructor|intros r []]|].
  destruct (negb (region_col =? region_column df)%string);
    [split; [constructor|intros r []]|].
  destruct (regions_of_results df _ (unique_NoDup (map region_of (current_data df))))
    as [Hnd Hincl].
  split; [exact Hnd|]. intros v Hv. apply unique_in, Hincl, Hv.
Qed.

(** X1.  The comparator emits at most one result per region, and every
    emitted region is the region of a row of the latest month. *)
Theorem one_result_per_region (df : DataFrame) (region_col : string) :
  NoDup (map region (calculate_metrics df region_col))
  /\ forall r, In r (calculate_metrics df region_col) ->
       exists row, In row (rows df)
                   /\ month_date_yyyymm row = latest_month df
                   /\ region_of row = region r.
Proof.
  destruct (calculate_metrics_regions df region_col) as [Hnd Hincl].
  split; [exact Hnd|].
  intros r Hr. apply (in_map region) in Hr. apply Hincl in Hr.
  apply in_map_iff in Hr. destruct Hr as (row & Hreg & Hrow).
  unfold current_data in Hrow. apply filter_In in Hrow. destruct Hrow as [Hin Hm].
  exists row. split; [exact Hin|]. split; [apply Z.eqb_eq; exact Hm|exact Hreg].
Qed.



Lemma fold_left_max_ge (l : list Z) (a : Z) :
  (a <= fold_left Z.max l a)%Z /\ forall x, In x l -> (x <= fold_left Z.max l a)%Z.
Proof.
  revert a. induction l as [|y l IH]; intros a; simpl.
  - split; [lia|intros x []].
  - destruct (IH (Z.max a y)) as [H1 H2]. split; [lia|].
    intros x [<-|Hx]; [lia|apply H2, Hx].
Qed.

Lemma max_month_ge (l : list Row) (r : Row) :
  In r l -> (month_date_yyyymm r <= max_month l)%Z.
Proof.
  destruct l as [|r0 l]; [intros []|]. unfold max_month.
  destruct (fold_left_max_ge (map month_date_yyyymm l) (month_date_yyyymm r0)) as [H1 H2].
  intros [<-|Hr]; [exact H1|]. apply H2, in_map, Hr.
Qed.

Lemma max_month_unique (l : list Row) (m : Z) :
  (exists r, In r l /\ month_date_yyyymm r = m) ->
  (forall r, In r l -> (month_date_yyyymm r <= m)%Z) ->
  max_month l = m.
Proof.
  intros (r & Hr & Hm) Hall.
  assert (Hne : l <> []) by (intros ->; destruct Hr).
  destruct (latest_month_in (mkDF EmptyString l) Hne) as (r' & Hr' & Hm').
  unfold latest_month in Hm'. simpl in *.
  pose proof (Hall r' Hr'). pose proof (max_month_ge l r Hr). lia.
Qed.

Lemma filter_filter_impl {A} (p q : A -> bool) (l : list A) :
  (forall x, p x = true -> q x = true) ->
  filter p (filter q l) = filter p l.
Proof.
  intros H. induction l as [|x l IH]; simpl; [reflexivity|].
  destruct (q x) eqn:Eq; simpl.
  - rewrite IH. reflexivity.
  - destruct (p x) eqn:Ep; [rewrite (H x Ep) in Eq; discriminate|exact IH].
Qed.

Lemma restrict_latest_month (df : DataFrame) :
  rows df <> [] -> latest_month (restrict df) = latest_month df.
Proof.
  intros Hne. unfold latest_month at 1. unfold restrict. cbn [rows].
  destruct (latest_month_in df Hne) as (r & Hr & Hm).
  apply max_month_unique.
  - exists r. split; [|exact Hm]. apply filter_In. split; [exact Hr|].
    unfold relevant. rewrite Hm, Z.eqb_refl. reflexivity.
  - intros r' Hr'. apply filter_In in Hr'. destruct Hr' as [Hr' _].
    apply max_month_ge. exact Hr'.
Qed.

Lemma restrict_current_data (df : DataFrame) :
  rows df <> [] -> current_data (restrict df) = current_data df.
Proof.
  intros Hne. unfold current_data. rewrite (restrict_latest_month df Hne).
  unfold restrict. cbn [rows]. apply filter_filter_impl.
  intros r H. unfold relevant. rewrite H. reflexivity.
Qed.

Lemma restrict_pre_pandemic (df : DataFrame) :
  rows df <> [] -> pre_pandemic (restrict df) = pre_pandemic df.
Proof.
  intros Hne. unfold pre_pandemic. rewrite (restrict_latest_month df Hne).
  unfold restrict. cbn [rows]. apply filter_filter_impl.
  intros r H. unfold relevant. rewrite H. apply orb_true_r.
Qed.

Lemma restrict_process_region (df : DataFrame) (reg : pyval) :
  rows df <> [] -> process_region (restrict df) reg = process_region df reg.
Proof.
  intros Hne. unfold process_region, current_rows, valid_active, valid_pending,
    historical_data.
  rewrite (restrict_current_data df Hne), (restrict_pre_pandemic df Hne). reflexivity.
Qed.

(** X3.  Only the rows of the latest month and the rows of 2016-2019 in
    its calendar month count: the comparator returns the same results on
    the dataset with all other rows removed. *)
Theorem other_months_ignored (df : DataFrame) (region_col : string) :
  calculate_metrics (restrict df) region_col = calculate_metrics df region_col.
Proof.
  destruct (rows df) as [|r0 l] eqn:E.
  - unfold calculate_metrics, df_empty, restrict. rewrite E. reflexivity.
  - assert (Hne : rows df <> []) by congruence.
    unfold calculate_metrics.
    assert (E1 : df_empty df = false) by (unfold df_empty; rewrite E; reflexivity).
    assert (E2 : df_empty (restrict df) = false).
    { destruct (latest_month_in df Hne) as (r & Hr & Hm).
      assert (Hin : In r (rows (restrict df))).
      { unfold restrict. cbn [rows]. apply filter_In. split; [exact Hr|].
        unfold relevant. rewrite Hm, Z.eqb_refl. reflexivity. }
      unfold df_empty. destruct (rows (restrict df)); [destruct Hin|reflexivity]. }
    rewrite E1, E2. cbn [region_column restrict].
    destruct (negb (region_col =? region_column df)%string); [reflexivity|].
    rewrite (restrict_current_data df Hne).
    apply flat_map_ext. intros reg. rewrite (restrict_process_region df reg Hne).
    reflexivity.
Qed.

(** X4.  Every emitted result has current and baseline counts of at
    least 30, ratios that are not negative, and percent changes of at least
    -100. *)
Theorem emitted_values_bounds (df : DataFrame) (region_col : string) (r : Result) :
  In r (calculate_metrics df region_col) ->
  30 <= currentActive r /\ 30 <= currentPending r
  /\ 30 <= historicalActive r /\ 30 <= historicalPending r
  /\ 0 <= currentRatio r /\ 0 <= historicalRatio r
  /\ -100 <= changePercentage r /\ -100 <= pendingChange r /\ -100 <= ratioChange r.
Proof.
  intros Hin. apply in_calculate_metrics, process_region_some in Hin.
  destruct Hin as (row & rest & _ & E1 & E2 & ->).
  set (reg := region r) in *.
  destruct (divisors_positive df reg row E1 E2) as (Pa & Pma & Pmp & Pr).
  unfold enough_history in E1. repeat rewrite andb_true_iff in E1.
  destruct E1 as [[_ _] Pp]. apply Qltb_lt in Pp.
  unfold below_floor in E2. repeat rewrite orb_false_iff in E2.
  destruct E2 as [[[Fa Fp] Fma] Fmp]. apply Qltb_ge in Fa, Fp, Fma, Fmp.
  assert (Hchange : forall c h, 0 < c -> 0 < h -> inject_Z (-100) <= (c - h) / h * 100).
  { intros c h Hc Hh.
    setoid_replace ((c - h) / h * 100) with (c / h * 100 + inject_Z (-100))
      by (field; intros E; rewrite E in Hh; discriminate).
    rewrite <- (Qplus_0_l (inject_Z (-100))) at 1.
    apply Qplus_le_l. apply Qmult_le_0_compat; [|discriminate].
    apply Qlt_le_weak, Qlt_shift_div_l; [exact Hh|]. rewrite Qmult_0_l. exact Hc. }
  unfold built_result; cbn [currentActive currentPending historicalActive
    historicalPending currentRatio historicalRatio changePercentage pendingChange
    ratioChange].
  assert (Pcr : 0 < pending_listing_count row / active_listing_count row).
  { apply Qlt_shift_div_l; [exact Pa|]. rewrite Qmult_0_l. exact Pp. }
  repeat split.
  - apply (round_ge_Z 30). exact Fa.
  - apply (round_ge_Z 30). exact Fp.
  - apply (round_ge_Z 30). exact Fma.
  - apply (round_ge_Z 30). exact Fmp.
  - apply (round_ge_Z 0), Qlt_le_weak, Pcr.
  - apply (round_ge_Z 0), Qlt_le_weak, Pr.
  - apply (round_ge_Z (-100)), Hchange; assumption.
  - apply (round_ge_Z (-100)), Hchange; assumption.
  - apply (round_ge_Z (-100)), Hchange; assumption.
Qed.

Lemma emitted_values_bounds_witness :
  30 <= currentActive Samples.large_metro_result
  /\ -100 <= ratioChange Samples.large_metro_result.
Proof.
  pose proof (emitted_values_bounds Samples.large_metro "cbsa_title"
                Samples.large_metro_result
                ltac:(vm_compute; left; reflexivity)) as H.
  split; [exact (proj1 H)|exact (proj2 (proj2 (proj2 (proj2 (proj2 (proj2 (proj2 (proj2 H))))))))].
Defined.

End ComparatorCoverage.

(* ================================================================== *)
(** * The fetcher: chunked and whole reads *)
(* ================================================================== *)

Module FetchCoverage.
Import Py Comparator Metrics PyFacts ComparatorFacts MetricsFacts.
Local Open Scope Q_scope.

Lemma in_dropna (raw : list RawRow) (r : Row) :
  In r (dropna raw) <->
  exists rr, In rr raw
             /\ raw_region rr = region_of r
             /\ raw_month rr = Some (month_date_yyyymm r)
             /\ raw_active rr = Some (active_listing_count r)
             /\ raw_pending rr = Some (pending_listing_count r)
             /\ raw_days rr = Some (median_days_on_market r)
             /\ raw_reduced rr = Some (price_reduced_count r).
Proof.
  unfold dropna. rewrite in_flat_map. split.
  - intros (rr & Hrr & Hr). exists rr. split; [exact Hrr|].
    apply in_option_to_list in Hr. unfold clean_row in Hr.
    destruct (raw_month rr), (raw_active rr), (raw_pending rr), (raw_days rr),
      (raw_reduced rr); try discriminate.
    injection Hr as <-. simpl. repeat split.
  - intros (rr & Hrr & H1 & H2 & H3 & H4 & H5 & H6). exists rr. split; [exact Hrr|].
    apply in_option_to_list. unfold clean_row. rewrite H2, H3, H4, H5, H6, H1.
    destruct r; reflexivity.
Qed.

End FetchCoverage.

(* ================================================================== *)
(** * The ranker on long inputs and the market-balance endpoint *)
(* ================================================================== *)

Module RankerCoverage.
Import Py Ranker RankerSpec PyFacts RankerFacts MarketBalance.
Local Open Scope Q_scope.

Lemma StronglySorted_app_inv {A} (R : A -> A -> Prop) (l1 l2 : list A) :
  StronglySorted R (l1 ++ l2) ->
  forall a b, In a l1 -> In b l2 -> R a b.
Proof.
  induction l1 as [|x l1 IH]; simpl; intros H a b Ha Hb; [destruct Ha|].
  inversion H as [|? ? Hs Hx]; subst.
  destruct Ha as [<-|Ha].
  - rewrite Forall_forall in Hx. apply Hx, in_or_app. right. exact Hb.
  - apply IH; assumption.
Qed.

(** X6.  When the input has at least [2 n] results for a positive [n],
    top and bottom are the two ends of the sorted list with the rest
    between them, each has [n] entries, and no bottom entry has a larger
    percent change than a top entry. *)
Theorem top_and_bottom_apart (data : list Comparator.Result) (metric : string) (n : Z) :
  (0 < n)%Z ->
  (2 * n <= Z.of_nat (length data))%Z ->
  let top := fst (get_top_bottom data metric n) in
  let bottom := snd (get_top_bottom data metric n) in
  (exists middle,
     map (entry_of metric) (sorted_desc (key_of metric) data) = top ++ middle ++ bottom)
  /\ length top = Z.to_nat n
  /\ length bottom = Z.to_nat n
  /\ forall t b, In t top -> In b bottom -> changePercentage b <= changePercentage t.
Proof.
  intros Hn Hlen. cbv zeta. rewrite get_top_bottom_eq. cbn [fst snd].
  rewrite slice_to_pos, slice_from_neg by exact Hn.
  set (s := sorted_desc (key_of metric) data).
  assert (Hs : length s = length data) by (unfold s, sorted_desc; apply sorted_length).
  set (k := Z.to_nat n).
  assert (Hk : (k + k <= length s)%nat) by (unfold k; lia).
  assert (Hsplit : s = firstn k s ++ firstn (length s - k - k) (skipn k s)
                       ++ skipn (length s - k) s).
  { rewrite <- (firstn_skipn k s) at 1. f_equal.
    rewrite <- (firstn_skipn (length s - k - k) (skipn k s)) at 1. f_equal.
    rewrite skipn_skipn. f_equal. lia. }
  split; [|split; [|split]].
  - exists (map (entry_of metric) (firstn (length s - k - k) (skipn k s))).
    rewrite <- !map_app, <- Hsplit. reflexivity.
  - rewrite length_map, length_firstn. lia.
  - rewrite length_map, length_skipn. lia.
  - intros t b Ht Hb. apply in_map_iff in Ht, Hb.
    destruct Ht as (rt & <- & Ht). destruct Hb as (rb & <- & Hb).
    rewrite !entry_of_key.
    pose proof (sorted_desc_sorted (key_of metric) data) as Hsorted. fold s in Hsorted.
    rewrite Hsplit in Hsorted.
    apply (StronglySorted_app_inv _ _ _ Hsorted rt rb Ht).
    apply in_or_app. right. exact Hb.
Qed.

Lemma top_and_bottom_apart_witness :
  (length (fst (get_top_bottom Samples.three_results "ratio" 1)) = 1)%nat
  /\ forall t b,
       In t (fst (get_top_bottom Samples.three_results "ratio" 1)) ->
       In b (snd (get_top_bottom Samples.three_results "ratio" 1)) ->
       changePercentage b <= changePercentage t.
Proof.
  pose proof (top_and_bottom_apart Samples.three_results "ratio" 1
                ltac:(lia) ltac:(simpl; lia)) as H.
  split; [exact (proj1 (proj2 H))|exact (proj2 (proj2 (proj2 H)))].
Defined.

Lemma entry_of_region (metric : string) (r : Comparator.Result) :
  Ranker.region (entry_of metric r) = Comparator.region r.
Proof.
  unfold entry_of.
  destruct (String.eqb metric "active"); [reflexivity|].
  destruct (String.eqb metric "pending"); reflexivity.
Qed.

Lemma NoDup_firstn {A} (n : nat) (l : list A) : NoDup l -> NoDup (firstn n l).
Proof.
  intros H. rewrite <- (firstn_skipn n l) in H. exact (NoDup_app_remove_r _ _ H).
Qed.

Lemma NoDup_skipn {A} (n : nat) (l : list A) : NoDup l -> NoDup (skipn n l).
Proof.
  intros H. rewrite <- (firstn_skipn n l) in H. exact (NoDup_app_remove_l _ _ H).
Qed.

Lemma ranking_shape (results : list Comparator.Result) (metric : string) :
  NoDup (map Comparator.region results) ->
  length (top (ranking results metric)) = Nat.min 10 (length results)
  /\ length (bottom (ranking results metric)) = Nat.min 10 (length results)
  /\ NoDup (map Ranker.region (top (ranking results metric)))
  /\ NoDup (map Ranker.region (bottom (ranking results metric)))
  /\ (forall e, In e (top (ranking results metric)) \/ In e (bottom (ranking results metric)) ->
        exists r, In r results /\ Ranker.region e = Comparator.region r).
Proof.
  intros Hnd. unfold ranking. rewrite get_top_bottom_eq. cbn [top bottom].
  unfold default_n. rewrite (slice_to_pos _ 10), (slice_from_neg _ 10) by lia.
  set (s := sorted_desc (key_of metric) results).
  assert (Hs : length s = length results) by (unfold s, sorted_desc; apply sorted_length).
  assert (Hp : Permutation s results) by apply sorted_desc_perm.
  assert (Hnds : NoDup (map Comparator.region s)).
  { eapply Permutation_NoDup; [|exact Hnd]. apply Permutation_map, Permutation_sym, Hp. }
  assert (Hmap : forall l, map Ranker.region (map (entry_of metric) l)
                           = map Comparator.region l).
  { intros l. rewrite map_map. apply map_ext, entry_of_region. }
  change (Z.to_nat 10) with 10%nat.
  split; [rewrite length_map, length_firstn; lia|].
  split; [rewrite length_map, length_skipn; lia|].
  split; [rewrite Hmap, <- firstn_map; apply NoDup_firstn, Hnds|].
  split; [rewrite Hmap, <- skipn_map; apply NoDup_skipn, Hnds|].
  intros e He.
  assert (Hin : In e (map (entry_of metric) s)).
  { destruct He as [He|He]; apply in_map_iff in He; destruct He as (r & <- & Hr);
      apply in_map.
    - rewrite <- (firstn_skipn 10 s). apply in_or_app. left. exact Hr.
    - rewrite <- (firstn_skipn (length s - 10) s). apply in_or_app. right. exact Hr. }
  apply in_map_iff in Hin. destruct Hin as (r & <- & Hr).
  exists r. split; [apply (Permutation_in _ Hp), Hr|apply entry_of_region].
Qed.

(** X7.  In the market-balance response the six lists have the same
    length, the number of emitted results capped at ten; no list names a
    region twice, and every entry is for an emitted result.  A failed
    fetch gives six empty lists. *)
Theorem market_balance_shape (response : option (list Metrics.RawRow)) :
  let results :=
    Comparator.calculate_metrics
      (Metrics.fetch_realtor_data Metrics.metro response)
      (Metrics.REGION_COLUMNS Metrics.metro) in
  let b := get_market_balance response in
  Forall (fun rk =>
            length (top rk) = Nat.min 10 (length results)
            /\ length (bottom rk) = Nat.min 10 (length results)
            /\ NoDup (map Ranker.region (top rk))
            /\ NoDup (map Ranker.region (bottom rk))
            /\ forall e, In e (top rk) \/ In e (bottom rk) ->
                 exists r, In r results /\ Ranker.region e = Comparator.region r)
         [active b; pending b; ratio b]
  /\ get_market_balance None = empty_balance.
Proof.
  cbv zeta. split; [|reflexivity].
  unfold get_market_balance.
  set (df := Metrics.fetch_realtor_data Metrics.metro response).
  pose proof (proj1 (ComparatorCoverage.calculate_metrics_regions df
                       (Metrics.REGION_COLUMNS Metrics.metro))) as Hnd.
  assert (Hempty : Comparator.calculate_metrics df (Metrics.REGION_COLUMNS Metrics.metro) = [] ->
            Forall (fun rk =>
              length (top rk)
              = Nat.min 10 (length (Comparator.calculate_metrics df
                                      (Metrics.REGION_COLUMNS Metrics.metro)))
              /\ length (bottom rk)
                 = Nat.min 10 (length (Comparator.calculate_metrics df
                                         (Metrics.REGION_COLUMNS Metrics.metro)))
              /\ NoDup (map Ranker.region (top rk))
              /\ NoDup (map Ranker.region (bottom rk))
              /\ forall e, In e (top rk) \/ In e (bottom rk) ->
                   exists r, In r (Comparator.calculate_metrics df
                                     (Metrics.REGION_COLUMNS Metrics.metro))
                             /\ Ranker.region e = Comparator.region r)
              [active empty_balance; pending empty_balance; ratio empty_balance]).
  { intros ->. repeat constructor; intros e [[]|[]]. }
  destruct (Comparator.df_empty df) eqn:Ee.
  - apply Hempty. unfold Comparator.calculate_metrics. rewrite Ee. reflexivity.
  - destruct (Comparator.calculate_metrics df (Metrics.REGION_COLUMNS Metrics.metro))
      as [|r0 results] eqn:Er; [apply Hempty; reflexivity|].
    cbn [active pending ratio].
    repeat constructor; apply ranking_shape; exact Hnd.
Qed.

End RankerCoverage.

(* ================================================================== *)
(** * The metrics handler: the series it returns *)
(* ================================================================== *)

Module MetricsCoverage.
Import Py Comparator Metrics MetricsSpec PyFacts ComparatorFacts MetricsFacts.
Import ComparatorCoverage.
Local Open Scope Q_scope.

Lemma sum_pos (l : list Q) : l <> [] -> Forall (fun x => 0 < x) l -> 0 < sum l.
Proof.
  intros Hne H. induction H as [|x l Hx Hl IH]; [congruence|].
  unfold sum in *. simpl. destruct l as [|y l'].
  - simpl. lra.
  - assert (0 < fold_right Qplus 0 (y :: l')) by (apply IH; discriminate). lra.
Qed.

Lemma mean_pos (l : list Q) : l <> [] -> Forall (fun x => 0 < x) l -> 0 < mean l.
Proof.
  intros Hne H. unfold mean. apply Qlt_shift_div_l.
  - change 0 with (inject_Z 0). rewrite <- Zlt_Qlt. destruct l; [congruence|simpl; lia].
  - rewrite Qmult_0_l. apply sum_pos; assumption.
Qed.

Lemma mean_valid_pos (metric : Row -> Q) (l : list Row) :
  (3 <= length (filter (fun h => Qltb 0 (metric h)) l))%nat ->
  0 < mean (map metric (filter (fun h => Qltb 0 (metric h)) l)).
Proof.
  intros H. apply mean_pos.
  - destruct (filter _ l); [simpl in H; lia|discriminate].
  - apply Forall_forall. intros x Hx. apply in_map_iff in Hx.
    destruct Hx as (h & <- & Hh). apply filter_In in Hh. apply Qltb_lt. tauto.
Qed.

(** With a row of the month at hand, an iteration over a metric column
    yields a point of that month. *)
Lemma metric_point_some (mstr : string) (month_data historical_data : list Row)
    (metric : Row -> Q) :
  month_data <> [] ->
  exists p, metric_point mstr month_data historical_data metric = Some p
            /\ month p = mstr.
Proof.
  intros Hne. unfold metric_point. destruct month_data as [|r rest]; [congruence|].
  destruct (3 <=? length (filter (fun h => Qltb 0 (metric h)) historical_data))%nat eqn:E.
  - apply Nat.leb_le in E. pose proof (mean_valid_pos metric historical_data E) as Hp.
    cbn [isfinite andb]. unfold py_div.
    destruct (Qeq_bool _ 0) eqn:Ez.
    + apply Qeq_bool_iff in Ez. rewrite Ez in Hp. discriminate.
    + eexists. split; reflexivity.
  - eexists. split; reflexivity.
Qed.

Lemma ratio_point_month (mstr : string) (month_data historical_data : list Row)
    (p : Point) :
  ratio_point mstr month_data historical_data = Some p -> month p = mstr.
Proof.
  unfold ratio_point. destruct month_data as [|r rest]; [discriminate|].
  destruct (_ && _)%bool.
  - destruct (_ && _)%bool; [|discriminate].
    destruct (py_div _ _); [|discriminate]. intros [= <-]. reflexivity.
  - intros [= <-]. reflexivity.
Qed.

Lemma map_flat_map_total {A B C} (g : A -> option B) (h : B -> C) (k : A -> C)
    (l : list A) :
  (forall x, In x l -> exists y, g x = Some y /\ h y = k x) ->
  map h (flat_map (fun x => option_to_list (g x)) l) = map k l.
Proof.
  induction l as [|x l IH]; intros H; simpl; [reflexivity|].
  destruct (H x (or_introl eq_refl)) as (y & -> & <-). simpl.
  f_equal. apply IH. intros z Hz. apply H. now right.
Qed.

Lemma map_flat_map_partial {A B C} (g : A -> option B) (h : B -> C) (k : A -> C)
    (l : list A) :
  (forall x y, g x = Some y -> h y = k x) ->
  exists sub, map h (flat_map (fun x => option_to_list (g x)) l) = map k sub
              /\ incl sub l /\ (length sub <= length l)%nat.
Proof.
  intros H. induction l as [|x l (sub & E & Hi & Hl)]; simpl.
  - exists []. repeat split; auto. intros z [].
  - destruct (g x) as [y|] eqn:Eg; simpl.
    + exists (x :: sub). rewrite E, (H x y Eg). repeat split; simpl; try lia.
      intros z [<-|Hz]; [now left|right; apply Hi, Hz].
    + exists sub. repeat split; auto. intros z Hz. right. apply Hi, Hz.
Qed.

Lemma sorted_months_in (l : list Row) (m : Z) :
  In m (sorted_months l) <-> exists r, In r l /\ month_date_yyyymm r = m.
Proof.
  unfold sorted_months. rewrite sorted_in, nodup_In, in_map_iff.
  split; intros (r & H1 & H2); exists r; tauto.
Qed.

Lemma sorted_months_increasing (l : list Row) :
  StronglySorted Z.lt (sorted_months l).
Proof.
  unfold sorted_months.
  set (ms := nodup Z.eq_dec (map month_date_yyyymm l)).
  assert (Hnd : NoDup (sorted Z.leb ms)).
  { eapply Permutation_NoDup; [apply Permutation_sym, sorted_perm|].
    apply NoDup_nodup. }
  assert (Hs : StronglySorted (fun a b => Z.leb a b = true) (sorted Z.leb ms)).
  { apply sorted_sorted.
    - intros x y. rewrite !Z.leb_le. lia.
    - intros x y z. rewrite !Z.leb_le. lia. }
  induction Hs as [|a s Hs IH Ha]; [constructor|].
  inversion Hnd as [|? ? Hnot Hnd']; subst.
  constructor; [apply IH, Hnd'|].
  rewrite Forall_forall in *. intros b Hb.
  pose proof (Ha b Hb) as Hle. apply Z.leb_le in Hle.
  assert (a <> b) by (intros ->; contradiction). lia.
Qed.

Lemma recent_months_range (selected : list Row) (m : Z) :
  In m (recent_months selected) ->
  (max_month selected - 100 < m <= max_month selected)%Z.
Proof.
  unfold recent_months. rewrite sorted_months_in. intros (r & Hr & <-).
  unfold recent_rows in Hr. apply filter_In in Hr. destruct Hr as [Hr Hlt].
  apply Z.ltb_lt in Hlt. split; [exact Hlt|apply max_month_ge, Hr].
Qed.

Lemma latest_in_recent_months (selected : list Row) :
  selected <> [] -> In (max_month selected) (recent_months selected).
Proof.
  intros Hne. destruct (latest_month_in (mkDF EmptyString selected) Hne) as (r & Hr & Hm).
  unfold latest_month in Hm. cbn [rows] in *.
  unfold recent_months. apply sorted_months_in. exists r. split; [|exact Hm].
  unfold recent_rows. apply filter_In. split; [exact Hr|]. apply Z.ltb_lt. lia.
Qed.

Lemma month_data_nonempty (selected : list Row) (m : Z) :
  In m (recent_months selected) ->
  filter (fun r => (month_date_yyyymm r =? m)%Z) (recent_rows selected) <> [].
Proof.
  unfold recent_months. rewrite sorted_months_in. intros (r & Hr & Hm) Hnil.
  assert (Hin : In r (filter (fun r => (month_date_yyyymm r =? m)%Z)
                             (recent_rows selected))).
  { apply filter_In. split; [exact Hr|]. apply Z.eqb_eq. exact Hm. }
  rewrite Hnil in Hin. destruct Hin.
Qed.

(** What the handler returns when it returns series. *)
Lemma get_metrics_object (py_int : string -> option Z) (granularity : Granularity)
    (region : string) (response : option (list RawRow)) (m : MetricsDict) :
  get_metrics py_int granularity region response = MetricsObject m ->
  exists key selected,
    region_key py_int granularity region = Some key
    /\ selected = filter (fun r => py_eq (region_of r) key)
                         (rows (fetch_realtor_data granularity response))
    /\ selected <> []
    /\ m = region_metrics selected.
Proof.
  unfold get_metrics.
  destruct (df_empty _); [discriminate|].
  destruct (region_key py_int granularity region) as [key|]; [|discriminate].
  destruct (filter _ _) as [|r0 sel] eqn:E; [discriminate|].
  intros [= <-]. exists key, (r0 :: sel). repeat split; auto. discriminate.
Qed.

(** X8.  When the handler returns series, each of the four metric series
    has exactly one point for every month of the selected region's rows in
    the trailing window, labelled YYYY-MM in ascending order; the months
    are later than the latest month minus 100 and the latest month is the
    last of them; the pending-ratio series has points for some of these
    months, in the same order. *)
Theorem metrics_series_months (py_int : string -> option Z) (granularity : Granularity)
    (region : string) (response : option (list RawRow)) (m : MetricsDict) :
  get_metrics py_int granularity region response = MetricsObject m ->
  exists key selected,
    region_key py_int granularity region = Some key
    /\ selected = filter (fun r => py_eq (region_of r) key)
                         (rows (fetch_realtor_data granularity response))
    /\ let months := recent_months selected in
       map month (m_active_listing_count m) = map month_str months
       /\ map month (m_pending_listing_count m) = map month_str months
       /\ map month (m_median_days_on_market m) = map month_str months
       /\ map month (m_price_reduced_count m) = map month_str months
       /\ (exists sub, map month (m_pending_ratio m) = map month_str sub
                       /\ incl sub months /\ (length sub <= length months)%nat)
       /\ StronglySorted Z.lt months
       /\ In (max_month selected) months
       /\ forall mo, In mo months ->
            (max_month selected - 100 < mo <= max_month selected)%Z.
Proof.
  intros H. apply get_metrics_object in H.
  destruct H as (key & selected & Hkey & Hsel & Hne & ->).
  exists key, selected. split; [exact Hkey|]. split; [exact Hsel|].
  cbv zeta.
  assert (Hmetric : forall metric,
    map month
      (flat_map (fun mo =>
                   option_to_list
                     (metric_point (month_str mo)
                        (filter (fun r => (month_date_yyyymm r =? mo)%Z)
                                (recent_rows selected))
                        (baseline_rows selected (mo mod 100)) metric))
                (recent_months selected))
    = map month_str (recent_months selected)).
  { intros metric. apply map_flat_map_total. intros mo Hmo.
    apply metric_point_some, month_data_nonempty, Hmo. }
  unfold region_metrics. cbn [m_active_listing_count m_pending_listing_count
    m_median_days_on_market m_price_reduced_count m_pending_ratio].
  fold (recent_rows selected). fold (recent_months selected).
  repeat (split; [apply Hmetric|]).
  split; [|split; [apply sorted_months_increasing|split;
            [apply latest_in_recent_months, Hne|apply recent_months_range]]].
  apply map_flat_map_partial. intros mo p Hp. apply ratio_point_month in Hp. exact Hp.
Qed.

Lemma StronglySorted_lt_NoDup (l : list Z) : StronglySorted Z.lt l -> NoDup l.
Proof.
  induction 1 as [|a l Hs IH Ha]; constructor; [|exact IH].
  intros Hin. rewrite Forall_forall in Ha. pose proof (Ha a Hin). lia.
Qed.

Lemma NoDup_map_on {A B} (f : A -> B) (l : list A) :
  (forall x y, In x l -> In y l -> f x = f y -> x = y) ->
  NoDup l -> NoDup (map f l).
Proof.
  intros Hinj. induction 1 as [|a l Hnot Hnd IH]; simpl; constructor.
  - intros Hin. apply in_map_iff in Hin. destruct Hin as (b & Hb & Hbl).
    apply Hnot. rewrite <- (Hinj b a); auto; [now right|now left].
  - apply IH. intros x y Hx Hy. apply Hinj; now right.
Qed.

(** A window of one hundred consecutive numbers holds at most twelve
    distinct months of the form YYYYMM. *)
Lemma at_most_twelve_months (latest : Z) (l : list Z) :
  NoDup l ->
  (forall m, In m l -> (latest - 100 < m <= latest)%Z /\ (1 <= m mod 100 <= 12)%Z) ->
  (length l <= 12)%nat.
Proof.
  intros Hnd Hall.
  assert (Hnd' : NoDup (map (fun m => Z.to_nat (m mod 100)) l)).
  { apply NoDup_map_on; [|exact Hnd]. intros x y Hx Hy E.
    destruct (Hall x Hx) as [Hx1 Hx2]. destruct (Hall y Hy) as [Hy1 Hy2].
    pose proof (Z.div_mod x 100 ltac:(lia)). pose proof (Z.div_mod y 100 ltac:(lia)).
    assert (x mod 100 = y mod 100)%Z by lia. lia. }
  assert (Hincl : incl (map (fun m => Z.to_nat (m mod 100)) l) (seq 1 12)).
  { intros k Hk. apply in_map_iff in Hk. destruct Hk as (m & <- & Hm).
    destruct (Hall m Hm) as [_ H]. apply in_seq. lia. }
  pose proof (NoDup_incl_length Hnd' Hincl) as H.
  rewrite length_map, length_seq in H. exact H.
Qed.

(** X9.  When every month of the fetched table is a calendar month
    (ends in 01 to 12), the four metric series have the same length, between
    one and twelve points, and the pending-ratio series is not longer. *)
Theorem metrics_series_at_most_twelve (py_int : string -> option Z)
    (granularity : Granularity) (region : string) (response : option (list RawRow))
    (m : MetricsDict) :
  (forall r, In r (rows (fetch_realtor_data granularity response)) ->
             (1 <= month_date_yyyymm r mod 100 <= 12)%Z) ->
  get_metrics py_int granularity region response = MetricsObject m ->
  (1 <= length (m_active_listing_count m) <= 12)%nat
  /\ length (m_pending_listing_count m) = length (m_active_listing_count m)
  /\ length (m_median_days_on_market m) = length (m_active_listing_count m)
  /\ length (m_price_reduced_count m) = length (m_active_listing_count m)
  /\ (length (m_pending_ratio m) <= length (m_active_listing_count m))%nat.
Proof.
  intros Hvalid H. apply get_metrics_object in H.
  destruct H as (key & selected & Hkey & Hsel & Hne & ->).
  assert (Hmonths : (1 <= length (recent_months selected) <= 12)%nat).
  { split.
    - pose proof (latest_in_recent_months selected Hne) as Hin.
      destruct (recent_months selected); [destruct Hin|simpl; lia].
    - apply (at_most_twelve_months (max_month selected)).
      + apply StronglySorted_lt_NoDup, sorted_months_increasing.
      + intros mo Hmo. split; [apply recent_months_range, Hmo|].
        unfold recent_months in Hmo. apply sorted_months_in in Hmo.
        destruct Hmo as (r & Hr & <-). apply Hvalid.
        unfold recent_rows in Hr. apply filter_In in Hr. destruct Hr as [Hr _].
        rewrite Hsel in Hr. apply filter_In in Hr. tauto. }
  assert (Hmetric : forall metric,
    length
      (flat_map (fun mo =>
                   option_to_list
                     (metric_point (month_str mo)
                        (filter (fun r => (month_date_yyyymm r =? mo)%Z)
                                (recent_rows selected))
                        (baseline_rows selected (mo mod 100)) metric))
                (recent_months selected))
    = length (recent_months selected)).
  { intros metric.
    rewrite <- (length_map month), <- (length_map month_str (recent_months selected)).
    f_equal. apply map_flat_map_total. intros mo Hmo.
    apply metric_point_some, month_data_nonempty, Hmo. }
  unfold region_metrics. cbn [m_active_listing_count m_pending_listing_count
    m_median_days_on_market m_price_reduced_count m_pending_ratio].
  fold (recent_rows selected). fold (recent_months selected).
  rewrite !Hmetric. repeat split; try lia.
  destruct (map_flat_map_partial
              (fun mo => ratio_point (month_str mo)
                           (filter (fun r => (month_date_yyyymm r =? mo)%Z)
                                   (recent_rows selected))
                           (baseline_rows selected (mo mod 100)))
              month month_str (recent_months selected)) as (sub & E & _ & Hl).
  { intros mo p Hp. apply ratio_point_month in Hp. exact Hp. }
  apply (f_equal (@length string)) in E. rewrite !length_map in E.
  rewrite E. exact Hl.
Qed.

Lemma metrics_series_at_most_twelve_witness :
  exists m,
    get_metrics Samples.parse_digits metro "02139" Samples.zip_response = MetricsObject m
    /\ (1 <= length (m_active_listing_count m) <= 12)%nat.
Proof.
  eexists. split; [reflexivity|].
  refine (proj1 (metrics_series_at_most_twelve Samples.parse_digits metro "02139"
                   Samples.zip_response _ _ eq_refl)).
  intros r [<-|[<-|[]]]; vm_compute; split; discriminate.
Defined.

Lemma metrics_series_months_witness :
  exists m,
    get_metrics Samples.parse_digits metro "02139" Samples.zip_response = MetricsObject m
    /\ map month (m_price_reduced_count m) = ["2024-02"; "2024-03"]%string.
Proof.
  eexists. split; [reflexivity|].
  destruct (metrics_series_months Samples.parse_digits metro "02139"
              Samples.zip_response _ eq_refl)
    as (key & selected & Hkey & Hsel & _ & _ & _ & Hm & _).
  rewrite Hm. injection Hkey as <-. rewrite Hsel. reflexivity.
Defined.

End MetricsCoverage.

(* ================================================================== *)
(** * The order of strings *)
(* ================================================================== *)

Module StringOrder.
Import Py PyFacts.

Lemma ascii_compare_N (a b : ascii) :
  Ascii.compare a b = N.compare (N_of_ascii a) (N_of_ascii b).
Proof. reflexivity. Qed.

Lemma ascii_compare_refl (a : ascii) : Ascii.compare a a = Eq.
Proof. rewrite ascii_compare_N. apply N.compare_refl. Qed.

Lemma string_compare_refl (s : string) : String.compare s s = Eq.
Proof.
  induction s as [|a s IH]; simpl; [reflexivity|].
  rewrite ascii_compare_refl. exact IH.
Qed.

Lemma ascii_compare_trans (c : comparison) (a b d : ascii) :
  Ascii.compare a b = c -> Ascii.compare b d = c -> Ascii.compare a d = c.
Proof.
  rewrite !ascii_compare_N. destruct c.
  - rewrite !N.compare_eq_iff. congruence.
  - rewrite !N.compare_lt_iff. lia.
  - rewrite !N.compare_gt_iff. lia.
Qed.

(** The order of strings is transitive. *)
Lemma string_compare_trans (c : comparison) (s1 s2 s3 : string) :
  String.compare s1 s2 = c -> String.compare s2 s3 = c -> String.compare s1 s3 = c.
Proof.
  revert s2 s3. induction s1 as [|a s1 IH]; intros [|b s2] [|d s3]; simpl;
    try congruence.
  destruct (Ascii.compare a b) eqn:E1.
  - apply Ascii.compare_eq_iff in E1. subst b.
    destruct (Ascii.compare a d); [apply IH|congruence|congruence].
  - destruct (Ascii.compare b d) eqn:E2.
    + apply Ascii.compare_eq_iff in E2. subst d. rewrite E1. congruence.
    + rewrite (ascii_compare_trans Lt _ _ _ E1 E2). congruence.
    + congruence.
  - destruct (Ascii.compare b d) eqn:E2.
    + apply Ascii.compare_eq_iff in E2. subst d. rewrite E1. congruence.
    + congruence.
    + rewrite (ascii_compare_trans Gt _ _ _ E1 E2). congruence.
Qed.

Lemma string_leb_trans (s1 s2 s3 : string) :
  String.leb s1 s2 = true -> String.leb s2 s3 = true -> String.leb s1 s3 = true.
Proof.
  unfold String.leb.
  destruct (String.compare s1 s2) eqn:E1; try discriminate;
    destruct (String.compare s2 s3) eqn:E2; try discriminate; intros _ _.
  - rewrite (string_compare_trans Eq _ _ _ E1 E2). reflexivity.
  - apply String.compare_eq_iff in E1. subst. rewrite E2. reflexivity.
  - apply String.compare_eq_iff in E2. subst. rewrite E1. reflexivity.
  - rewrite (string_compare_trans Lt _ _ _ E1 E2). reflexivity.
Qed.

Lemma string_leb_refl (s : string) : String.leb s s = true.
Proof. unfold String.leb. rewrite string_compare_refl. reflexivity. Qed.

Lemma sorted_strings (l : list string) :
  StronglySorted (fun a b => String.leb a b = true) (sorted String.leb l).
Proof.
  apply sorted_sorted; [apply String.leb_total|apply string_leb_trans].
Qed.

Lemma StronglySorted_app_cross {A} (R : A -> A -> Prop) (l1 l2 : list A) :
  StronglySorted R (l1 ++ l2) ->
  forall a b, In a l1 -> In b l2 -> R a b.
Proof.
  induction l1 as [|x l1 IH]; simpl; intros H a b Ha Hb; [destruct Ha|].
  inversion H as [|? ? Hs Hx]; subst.
  destruct Ha as [<-|Ha].
  - rewrite Forall_forall in Hx. apply Hx, in_or_app. right. exact Hb.
  - apply IH; assumption.
Qed.

(** The last element of a sorted list of strings is its greatest. *)
Lemma last_sorted_greatest (l : list string) (m : string) :
  Affordability.last_opt (sorted String.leb l) = Some m ->
  In m l /\ forall c, In c l -> String.leb c m = true.
Proof.
  unfold Affordability.last_opt. intros H.
  destruct (rev (sorted String.leb l)) as [|x rest] eqn:E; [discriminate|].
  injection H as ->.
  assert (Es : sorted String.leb l = rev rest ++ [m]).
  { rewrite <- (rev_involutive (sorted String.leb l)), E. reflexivity. }
  split.
  - apply (sorted_in String.leb). rewrite Es. apply in_or_app. right. now left.
  - intros c Hc. apply (sorted_in String.leb) in Hc. rewrite Es in Hc.
    apply in_app_or in Hc. destruct Hc as [Hc|[<-|[]]]; [|apply string_leb_refl].
    pose proof (sorted_strings l) as Hs. rewrite Es in Hs.
    apply (StronglySorted_app_cross _ _ _ Hs c m Hc). now left.
Qed.

End StringOrder.

(* ================================================================== *)
(** * The affordability merger and summary: values and order *)
(* ================================================================== *)

Module AffordabilityCoverage.
Import Py Affordability AffordabilitySpec PyFacts AffordabilityFacts StringOrder.
Local Open Scope Q_scope.

Lemma usable_some (v : float) (q : Q) :
  usable v = Some q -> v = Fin q /\ ~ q == 0.
Proof.
  destruct v as [|q']; simpl; [discriminate|].
  destruct (Qeq_bool q' 0) eqn:E; [discriminate|]. intros [= ->].
  split; [reflexivity|]. apply Qeq_bool_neq. exact E.
Qed.

Lemma merge_row_values (homeowner_df renter_df : WideFrame) (latest_month : string)
    (row : WideRow) (res : Result) :
  merge_row homeowner_df renter_df latest_month row = Some res ->
  region res = RegionName row
  /\ (exists renter_row rest,
        filter (fun r => String.eqb (RegionName r) (region res)) (wrows renter_df)
        = renter_row :: rest
        /\ get_cell renter_df renter_row latest_month = Some (Fin (renterAffordability res)))
  /\ ~ renterAffordability res == 0
  /\ match homeownerAffordability res with
     | Some h =>
       get_cell homeowner_df row latest_month = Some (Fin h)
       /\ ~ h == 0
       /\ affordabilityGap res = Some (h - renterAffordability res)
     | None => affordabilityGap res = None
     end.
Proof.
  unfold merge_row.
  destruct (filter _ (wrows renter_df)) as [|renter_row rest] eqn:Ef; [discriminate|].
  destruct (get_cell renter_df renter_row latest_month) as [rv|] eqn:Er; [|discriminate].
  destruct (usable rv) as [renter_value|] eqn:Eu; [|discriminate].
  apply usable_some in Eu. destruct Eu as [-> Hr].
  intros [= <-]. cbn [region affordabilityGap homeownerAffordability renterAffordability].
  split; [reflexivity|]. split; [exists renter_row, rest; split; [exact Ef|exact Er]|].
  split; [exact Hr|].
  destruct (get_cell homeowner_df row latest_month) as [hv|] eqn:Ehc; [|reflexivity].
  destruct (usable hv) as [h|] eqn:Eh; [|reflexivity].
  apply usable_some in Eh. destruct Eh as [-> Hh]. repeat split. exact Hh.
Qed.

(** X10.  Every result of the merger is read at one column, the greatest
    month column of the homeowner table: its renter value is the cell of
    the first renter row of its region and is not zero; a homeowner value,
    when present, is the cell of a homeowner row of the region, is not zero,
    and the gap is then the homeowner value minus the renter value; without
    a homeowner value there is no gap. *)
Theorem merger_reads_latest_column (homeowner_df renter_df : WideFrame) (res : Result) :
  In res (calculate_affordability_metrics homeowner_df renter_df) ->
  exists latest_month homeowner_row renter_row rest,
    In latest_month (columns homeowner_df)
    /\ is_month_column latest_month = true
    /\ (forall c, In c (columns homeowner_df) -> is_month_column c = true ->
                  String.leb c latest_month = true)
    /\ In homeowner_row (wrows homeowner_df)
    /\ RegionName homeowner_row = region res
    /\ filter (fun r => String.eqb (RegionName r) (region res)) (wrows renter_df)
       = renter_row :: rest
    /\ get_cell renter_df renter_row latest_month = Some (Fin (renterAffordability res))
    /\ ~ renterAffordability res == 0
    /\ match homeownerAffordability res with
       | Some h =>
         get_cell homeowner_df homeowner_row latest_month = Some (Fin h)
         /\ ~ h == 0
         /\ affordabilityGap res = Some (h - renterAffordability res)
       | None => affordabilityGap res = None
       end.
Proof.
  unfold calculate_affordability_metrics.
  destruct (wide_empty homeowner_df || wide_empty renter_df); [intros []|].
  destruct (last_opt _) as [latest_month|] eqn:El; [|intros []].
  apply last_sorted_greatest in El. destruct El as [Hin Hmax].
  apply filter_In in Hin. destruct Hin as [Hcol Hmonth].
  intros Hres.
  assert (Hc : In res (collected homeowner_df renter_df latest_month)).
  { apply in_app_or in Hres. destruct Hres as [H|H].
    - unfold sorted_desc in H. apply sorted_in in H. apply filter_In in H. tauto.
    - apply filter_In in H. tauto. }
  unfold collected in Hc. apply in_flat_map in Hc. destruct Hc as (row & Hrow & Hm).
  apply ComparatorFacts.in_option_to_list in Hm.
  apply merge_row_values in Hm.
  destruct Hm as (Hreg & (renter_row & rest & Hf & Hcell) & Hnz & Hh).
  exists latest_month, row, renter_row, rest.
  split; [exact Hcol|]. split; [exact Hmonth|].
  split; [intros c Hc1 Hc2; apply Hmax, filter_In; tauto|].
  split; [exact Hrow|]. split; [symmetry; exact Hreg|].
  split; [exact Hf|]. split; [exact Hcell|]. split; [exact Hnz|exact Hh].
Qed.

Lemma merger_reads_latest_column_witness :
  exists latest_month,
    In latest_month (columns Samples.homeowner_only)
    /\ is_month_column latest_month = true.
Proof.
  destruct (merger_reads_latest_column Samples.homeowner_only Samples.renter_one
              {| region := "Boise, ID";
                 homeownerAffordability := Some (4 # 10);
                 renterAffordability := 1 # 4;
                 affordabilityGap := Some (6 # 40) |}
              ltac:(vm_compute; left; reflexivity))
    as (lm & _ & _ & _ & H1 & H2 & _).
  exists lm. split; assumption.
Defined.

(** Sorting a list that is in order returns it. *)
Lemma sorted_of_sorted {A} (leb : A -> A -> bool) (l : list A) :
  StronglySorted (fun a b => leb a b = true) l -> sorted leb l = l.
Proof.
  induction 1 as [|x l Hs IH Hx]; simpl; [reflexivity|].
  rewrite IH. destruct l as [|y l']; [reflexivity|]. simpl.
  rewrite Forall_forall in Hx. rewrite (Hx y (or_introl eq_refl)). reflexivity.
Qed.

Lemma sorted_desc_of_sorted {A} (key : A -> Q) (l : list A) :
  StronglySorted (fun a b => key b <= key a) l -> sorted_desc key l = l.
Proof.
  intros H. unfold sorted_desc. apply sorted_of_sorted.
  induction H as [|x l Hs IH Hx]; constructor; [exact IH|].
  eapply Forall_impl; [|exact Hx]. intros y Hy. apply Qle_bool_iff. exact Hy.
Qed.

Lemma filter_all {A} (f : A -> bool) (l : list A) :
  (forall x, In x l -> f x = true) -> filter f l = l.
Proof.
  induction l as [|x l IH]; intros H; simpl; [reflexivity|].
  rewrite (H x (or_introl eq_refl)). f_equal. apply IH. intros y Hy. apply H. now right.
Qed.

(** The merger's output is already what the summary sorts it into. *)
Lemma merger_output_split (homeowner_df renter_df : WideFrame) :
  let results := calculate_affordability_metrics homeowner_df renter_df in
  sorted_desc gap_key (filter has_gap results) = filter has_gap results
  /\ results = filter has_gap results ++ filter (fun r => negb (has_gap r)) results
  /\ StronglySorted (fun a b => gap_key b <= gap_key a) (filter has_gap results).
Proof.
  cbv zeta.
  destruct (calculate_affordability_metrics_cases homeowner_df renter_df)
    as [->|(lm & ->)]; [repeat split; constructor|].
  set (c := collected homeowner_df renter_df lm).
  set (sv := sorted_desc gap_key (filter has_gap c)).
  set (inv := filter (fun r => negb (has_gap r)) c).
  assert (Hsv : forall r, In r sv -> has_gap r = true).
  { intros r Hr. unfold sv, sorted_desc in Hr. apply sorted_in in Hr.
    apply filter_In in Hr. tauto. }
  assert (Hinv : forall r, In r inv -> has_gap r = false).
  { intros r Hr. unfold inv in Hr. apply filter_In in Hr.
    destruct Hr as [_ Hr]. apply negb_true_iff in Hr. exact Hr. }
  assert (E1 : filter has_gap (sv ++ inv) = sv).
  { rewrite filter_app, (filter_all _ sv Hsv), (MetricsFacts.filter_none _ inv Hinv).
    apply app_nil_r. }
  assert (E2 : filter (fun r => negb (has_gap r)) (sv ++ inv) = inv).
  { rewrite filter_app, (MetricsFacts.filter_none _ sv), (filter_all _ inv).
    - reflexivity.
    - intros r Hr. rewrite (Hinv r Hr). reflexivity.
    - intros r Hr. rewrite (Hsv r Hr). reflexivity. }
  assert (Hs : StronglySorted (fun a b => gap_key b <= gap_key a) sv)
    by apply sorted_desc_sorted.
  rewrite E1, E2. split; [apply sorted_desc_of_sorted, Hs|]. split; [reflexivity|exact Hs].
Qed.

Lemma StronglySorted_rev {A} (R : A -> A -> Prop) (l : list A) :
  StronglySorted R l -> StronglySorted (fun a b => R b a) (rev l).
Proof.
  induction 1 as [|x l Hs IH Hx]; simpl; [constructor|].
  assert (G : forall l1, StronglySorted (fun a b => R b a) l1 ->
                         Forall (fun a => R x a) l1 ->
                         StronglySorted (fun a b => R b a) (l1 ++ [x])).
  { induction 1 as [|y l1 Hs1 IH1 Hy]; intros Hall; simpl.
    - constructor; constructor.
    - inversion Hall; subst. constructor; [apply IH1; assumption|].
      apply Forall_app. split; [exact Hy|]. constructor; [assumption|constructor]. }
  apply G; [exact IH|]. apply Forall_rev. exact Hx.
Qed.

Lemma StronglySorted_app_r {A} (R : A -> A -> Prop) (l1 l2 : list A) :
  StronglySorted R (l1 ++ l2) -> StronglySorted R l2.
Proof.
  induction l1 as [|x l1 IH]; simpl; intros H; [exact H|].
  inversion H; subst. apply IH. assumption.
Qed.

(** X11.  The summary's least-affordable list is the first ten results of
    the merger (sorting them again changes nothing), and its most-affordable
    list is the last ten results with a gap in reverse: it has at most ten
    entries, its gaps never decrease, and its first entry has the smallest
    gap of all results with a gap. *)
Theorem summary_lists (homeowner_df renter_df : WideFrame) :
  let results := calculate_affordability_metrics homeowner_df renter_df in
  let with_gap := filter has_gap results in
  let s := get_affordability_summary homeowner_df renter_df in
  leastAffordable s = firstn 10 results
  /\ mostAffordable s = rev (skipn (length with_gap - 10) with_gap)
  /\ (length (leastAffordable s) <= 10)%nat
  /\ length (mostAffordable s) = Nat.min 10 (length with_gap)
  /\ StronglySorted (fun a b => gap_key a <= gap_key b) (mostAffordable s)
  /\ forall first rest r,
       mostAffordable s = first :: rest -> In r with_gap -> gap_key first <= gap_key r.
Proof.
  cbv zeta.
  destruct (merger_output_split homeowner_df renter_df) as (E1 & E2 & Hs).
  assert (Hmost : mostAffordable (get_affordability_summary homeowner_df renter_df)
                  = rev (skipn (length (filter has_gap
                           (calculate_affordability_metrics homeowner_df renter_df)) - 10)
                          (filter has_gap
                             (calculate_affordability_metrics homeowner_df renter_df)))
                  /\ leastAffordable (get_affordability_summary homeowner_df renter_df)
                     = firstn 10 (calculate_affordability_metrics homeowner_df renter_df)).
  { unfold get_affordability_summary.
    destruct (wide_empty homeowner_df || wide_empty renter_df) eqn:Ee.
    - unfold calculate_affordability_metrics. rewrite Ee. split; reflexivity.
    - destruct (calculate_affordability_metrics homeowner_df renter_df) as [|r0 rs] eqn:Er;
        [split; reflexivity|].
      cbn [leastAffordable mostAffordable]. rewrite E1, <- E2.
      rewrite (slice_to_pos _ 10), (slice_from_neg _ 10) by lia.
      split; reflexivity. }
  destruct Hmost as [Hmost Hleast]. rewrite Hmost, Hleast.
  set (results := calculate_affordability_metrics homeowner_df renter_df) in *.
  set (wg := filter has_gap results) in *.
  split; [reflexivity|]. split; [reflexivity|].
  split; [rewrite length_firstn; lia|].
  split; [rewrite length_rev, length_skipn; lia|].
  assert (Htail : StronglySorted (fun a b => gap_key b <= gap_key a)
                    (skipn (length wg - 10) wg)).
  { apply TrendFacts.StronglySorted_skipn. exact Hs. }
  split; [apply (StronglySorted_rev _ _ Htail)|].
  intros first rest r Hfirst Hr.
  assert (Hlast : skipn (length wg - 10) wg = rev rest ++ [first]).
  { rewrite <- (rev_involutive (skipn _ wg)), Hfirst. reflexivity. }
  rewrite <- (firstn_skipn (length wg - 10) wg) in Hr, Hs. rewrite Hlast in Hr, Hs.
  apply in_app_or in Hr. destruct Hr as [Hr|Hr].
  - apply (StronglySorted_app_cross _ _ _ Hs r first Hr).
    apply in_or_app. right. now left.
  - apply in_app_or in Hr. destruct Hr as [Hr|[<-|[]]]; [|apply Qle_refl].
    apply StronglySorted_app_r in Hs.
    apply (StronglySorted_app_cross _ _ _ Hs r first Hr). now left.
Qed.

End AffordabilityCoverage.

(* ================================================================== *)
(** * The trend estimator: lines and old points *)
(* ================================================================== *)

Module TrendCoverage.
Import Py Trend TrendSpec PyFacts TrendFacts.
Local Open Scope Q_scope.







Lemma valid_from_app (start : nat) (p s : list (option float)) :
  valid_from start (p ++ s) = valid_from start p ++ valid_from (start + length p) s.
Proof.
  revert start. induction p as [|d p IH]; intros start; simpl.
  - rewrite Nat.add_0_r. reflexivity.
  - rewrite !valid_from_cons, IH, app_assoc. do 2 f_equal. lia.
Qed.

Lemma count_valid_app (p s : list (option float)) :
  count_valid (p ++ s) = (count_valid p + count_valid s)%nat.
Proof. unfold count_valid. rewrite filter_app, length_app. reflexivity. Qed.

(** X13.  The estimator looks at the last six valid points only: two
    inputs that end in the same values, six or more of them valid, and
    differ in equally many older entries give the same trend. *)
Theorem trend_ignores_old_points (old1 old2 recent : list (option float)) :
  length old1 = length old2 ->
  (6 <= count_valid recent)%nat ->
  calculate_regression_trend (old1 ++ recent)
  = calculate_regression_trend (old2 ++ recent).
Proof.
  intros Hlen Hrecent.
  assert (Hused : forall old,
    slice_from (valid_pairs (old ++ recent)) (-6)
    = skipn (count_valid recent - 6) (valid_from (length old) recent)).
  { intros old. rewrite used_pairs.
    change (valid_pairs (old ++ recent)) with (valid_from 0 (old ++ recent)).
    rewrite valid_from_app, count_valid_app, skipn_app, valid_from_length. simpl.
    replace (count_valid old + count_valid recent - 6 - count_valid old)%nat
      with (count_valid recent - 6)%nat by lia.
    rewrite skipn_all2 by (rewrite valid_from_length; lia). reflexivity. }
  unfold calculate_regression_trend.
  rewrite !valid_pairs_length, !Hused, !count_valid_app, !length_app, Hlen.
  unfold all_none. rewrite !length_app, Hlen.
  assert (E : (count_valid old1 + count_valid recent <? 3)%nat = false)
    by (apply Nat.ltb_ge; lia).
  assert (E' : (count_valid old2 + count_valid recent <? 3)%nat = false)
    by (apply Nat.ltb_ge; lia).
  rewrite E, E'. reflexivity.
Qed.

Lemma trend_ignores_old_points_witness :
  calculate_regression_trend
    ([Some (Affordability.Fin 100); None]
       ++ map (fun q => Some (Affordability.Fin q)) [1; 2; 4; 3; 5; 7])
  = calculate_regression_trend
      ([None; Some (Affordability.Fin (-5))]
         ++ map (fun q => Some (Affordability.Fin q)) [1; 2; 4; 3; 5; 7]).
Proof.
  apply trend_ignores_old_points; [reflexivity|vm_compute; lia].
Defined.

End TrendCoverage.

(* ================================================================== *)
(** * The endpoints that list regions: order, identifiers, failure *)
(* ================================================================== *)

Module RegionsFacts.
Import Py Regions RegionsSpec PyFacts StringOrder ComparatorCoverage.

Lemma distinct_in {A} (eqb : A -> A -> bool) (l : list A) (x : A) :
  (forall a b, eqb a b = true <-> a = b) ->
  In x (distinct eqb l) <-> In x l.
Proof.
  intros Heq. induction l as [|y l IH]; simpl; [tauto|].
  rewrite filter_In, IH. split.
  - intros [H|[H _]]; auto.
  - intros [H|H]; [now left|].
    destruct (eqb y x) eqn:E; [left; apply Heq, E|right; split; [exact H|reflexivity]].
Qed.











Lemma insert_lt_perm (x : pyval) (l s : list pyval) :
  insert_lt x l = Some s -> Permutation s (x :: l).
Proof.
  revert s. induction l as [|y l IH]; simpl; intros s H.
  - injection H as <-. apply Permutation_refl.
  - destruct (py_lt y x) as [[|]|]; try discriminate.
    + destruct (insert_lt x l) as [r|]; [|discriminate]. injection H as <-.
      apply perm_trans with (y :: x :: l); [apply perm_skip, IH; reflexivity|apply perm_swap].
    + injection H as <-. apply Permutation_refl.
Qed.

Lemma sort_values_perm (l s : list pyval) :
  sort_values l = Some s -> Permutation s l.
Proof.
  revert s. induction l as [|x l IH]; simpl; intros s H.
  - injection H as <-. constructor.
  - destruct (sort_values l) as [s'|]; [|discriminate].
    apply perm_trans with (x :: s'); [apply insert_lt_perm, H|apply perm_skip, IH; reflexivity].
Qed.

Lemma py_lt_kinds (a b : pyval) : is_str a <> is_str b -> py_lt a b = None.
Proof. destruct a, b; simpl; congruence. Qed.

(** Sorting a list that holds a string and a value that is not a string
    raises. *)
Lemma sort_values_mixed (l : list pyval) :
  (exists a, In a l /\ is_str a = true) ->
  (exists b, In b l /\ is_str b = false) ->
  sort_values l = None.
Proof.
  induction l as [|x l IH]; intros (a & Ha & Sa) (b & Hb & Sb); [destruct Ha|].
  simpl. destruct (sort_values l) as [s|] eqn:Es; [|reflexivity].
  pose proof (sort_values_perm _ _ Es) as Hp.
  assert (Hhom : forall u v, In u l -> In v l -> is_str u = is_str v).
  { intros u v Hu Hv. destruct (is_str u) eqn:Eu, (is_str v) eqn:Ev; try reflexivity.
    - assert (E : Some s = None) by (apply IH; [exists u|exists v]; auto).
      discriminate E.
    - assert (E : Some s = None) by (apply IH; [exists v|exists u]; auto).
      discriminate E. }
  assert (Hother : exists y, In y l /\ is_str y <> is_str x).
  { destruct Ha as [<-|Ha], Hb as [<-|Hb]; try congruence.
    - exists b. split; [exact Hb|congruence].
    - exists a. split; [exact Ha|congruence].
    - destruct (is_str x) eqn:Ex; [exists b|exists a]; split; auto; congruence. }
  destruct Hother as (y & Hy & Hne).
  destruct s as [|z s'].
  - apply Permutation_nil in Hp. subst l. destruct Hy.
  - simpl. rewrite py_lt_kinds; [reflexivity|].
    assert (Hz : In z l) by (apply (Permutation_in _ Hp); now left).
    rewrite (Hhom z y Hz Hy). exact Hne.
Qed.


(** The region column the endpoint lists. *)
Lemma zip_column (response : option (list Metrics.RawRow)) :
  map (fun r => PStr (Metrics.py_str (Comparator.region_of r)))
      (Comparator.rows (Metrics.fetch_realtor_data Metrics.zip response))
  = map Comparator.region_of
        (Comparator.rows (Metrics.fetch_realtor_data Metrics.zip response)).
Proof.
  apply map_ext_in. intros r Hr.
  destruct (MetricsFacts.zip_regions_are_strings response r Hr) as (s & ->). reflexivity.
Qed.

Lemma get_regions_eq (granularity : Metrics.Granularity)
    (response : option (list Metrics.RawRow)) :
  get_regions granularity response
  = let df := Metrics.fetch_realtor_data granularity response in
    if Comparator.df_empty df then Some []
    else option_map items (sort_values (unique (map Comparator.region_of (Comparator.rows df)))).
Proof.
  unfold get_regions. cbv zeta.
  destruct (Comparator.df_empty _); [reflexivity|].
  destruct granularity; try (destruct (sort_values _); reflexivity).
  rewrite zip_column. destruct (sort_values _); reflexivity.
Qed.


(** X16.  At a granularity other than postal code, a cleaned table that
    holds a row with a region name and a row whose region is missing makes
    the regions endpoint fail: sorting the names compares a string with a
    number and raises. *)
Theorem regions_fail_on_unnamed_row (granularity : Metrics.Granularity)
    (response : option (list Metrics.RawRow)) (named other : Comparator.Row) (s : string) :
  granularity <> Metrics.zip ->
  In named (Comparator.rows (Metrics.fetch_realtor_data granularity response)) ->
  Comparator.region_of named = PStr s ->
  In other (Comparator.rows (Metrics.fetch_realtor_data granularity response)) ->
  Comparator.region_of other = PNaN ->
  get_regions granularity response = None.
Proof.
  intros Hg Hn Hs Ho Hnan. rewrite get_regions_eq. cbv zeta.
  set (df := Metrics.fetch_realtor_data granularity response) in *.
  assert (Ee : Comparator.df_empty df = false).
  { unfold Comparator.df_empty. destruct (Comparator.rows df); [destruct Hn|reflexivity]. }
  rewrite Ee, sort_values_mixed; [reflexivity| |].
  - exists (PStr s). split; [|reflexivity].
    apply unique_in, in_map_iff. exists named. auto.
  - exists PNaN. split; [|reflexivity].
    apply unique_in, in_map_iff. exists other. auto.
Qed.


Lemma regions_fail_on_unnamed_row_witness :
  get_regions Metrics.metro MoreSamples.unnamed_response = None.
Proof.
  apply (regions_fail_on_unnamed_row Metrics.metro MoreSamples.unnamed_response
           (Comparator.mkRow (PStr "Metro A") 202403 50 40 30 5)
           (Comparator.mkRow PNaN 202403 55 35 30 5) "Metro A").
  - discriminate.
  - left. reflexivity.
  - reflexivity.
  - right. left. reflexivity.
  - reflexivity.
Defined.

End RegionsFacts.

(* ================================================================== *)
(** * The monthly affordability series: failure and shape *)
(* ================================================================== *)

Module AffordabilityMetricsFacts.
Import Py Affordability AffordabilityMetrics PyFacts StringOrder RegionsFacts.
Local Open Scope Q_scope.

Lemma map_opt_some {A B} (f : A -> option B) (l : list A) (ys : list B) :
  map_opt f l = Some ys -> Forall2 (fun x y => f x = Some y) l ys.
Proof.
  revert ys. induction l as [|x l IH]; simpl; intros ys H.
  - injection H as <-. constructor.
  - destruct (f x) as [y|] eqn:E; [|discriminate].
    destruct (map_opt f l) as [ys'|]; [|discriminate].
    injection H as <-. constructor; [exact E|apply IH; reflexivity].
Qed.

Lemma map_opt_none {A B} (f : A -> option B) (l : list A) (x : A) :
  In x l -> f x = None -> map_opt f l = None.
Proof.
  induction l as [|y l IH]; simpl; intros Hin Hx; [destruct Hin|].
  destruct Hin as [->|Hin].
  - rewrite Hx. reflexivity.
  - destruct (f y); [|reflexivity]. rewrite (IH Hin Hx). reflexivity.
Qed.

Lemma in_all_date_columns (t : Tables) (date : string) :
  In date (all_date_columns t) <->
  exists df, In df (table_list t) /\ In date (columns df) /\ is_date_column date = true.
Proof.
  unfold all_date_columns.
  rewrite sorted_in, (distinct_in _ _ _ String.eqb_eq), in_flat_map.
  split; intros (df & Hdf & H); exists df; (split; [exact Hdf|]).
  - apply filter_In in H. exact H.
  - apply filter_In. exact H.
Qed.

Lemma value_at_absent (df : WideFrame) (region date : string) :
  In date (columns df) ->
  (forall r, In r (wrows df) -> RegionName r <> region) ->
  value_at df region date = None.
Proof.
  intros Hcol Hno. unfold value_at.
  assert (E : existsb (String.eqb date) (columns df) = true).
  { apply existsb_exists. exists date. split; [exact Hcol|apply String.eqb_refl]. }
  rewrite E, MetricsFacts.filter_none; [reflexivity|].
  intros r Hr. apply String.eqb_neq, Hno, Hr.
Qed.

(** X17.  When one of the six tables has a date column and no row of the
    requested region, the monthly-series endpoint fails with a server
    error: the region is not reported with missing values. *)
Theorem metrics_fail_on_absent_region (t : Tables) (region date : string)
    (df : WideFrame) :
  In df (table_list t) ->
  In date (columns df) ->
  is_date_column date = true ->
  (forall r, In r (wrows df) -> RegionName r <> region) ->
  get_affordability_metrics t region = None.
Proof.
  intros Hdf Hcol Hdate Hno. unfold get_affordability_metrics.
  rewrite (map_opt_none _ _ date); [reflexivity| |].
  - apply in_all_date_columns. exists df. auto.
  - pose proof (value_at_absent df region date Hcol Hno) as Hv.
    unfold data_point. destruct (month_of date); [|reflexivity].
    unfold table_list in Hdf. simpl in Hdf.
    destruct Hdf as [<-|[<-|[<-|[<-|[<-|[<-|[]]]]]]];
      destruct (value_at (homeowner_df t) region date) eqn:E1; try reflexivity;
      destruct (value_at (renter_df t) region date) eqn:E2; try reflexivity;
      destruct (value_at (total_payment_df t) region date) eqn:E3; try reflexivity;
      destruct (value_at (mortgage_payment_df t) region date) eqn:E4; try reflexivity;
      destruct (value_at (affordable_price_df t) region date) eqn:E5; try reflexivity;
      destruct (value_at (median_price_df t) region date) eqn:E6; try reflexivity;
      congruence.
Qed.

Lemma metrics_fail_on_absent_region_witness :
  get_affordability_metrics SeriesSamples.two_tables "Austin, TX" = None.
Proof.
  apply (metrics_fail_on_absent_region SeriesSamples.two_tables "Austin, TX"
           "2024-01-31" Samples.renter_one).
  - right. left. reflexivity.
  - right. right. left. reflexivity.
  - reflexivity.
  - intros r [<-|[]]. discriminate.
Defined.

(** The trend is as long as the input. *)
Lemma trend_length (data : list (option Trend.float)) :
  length (Trend.calculate_regression_trend data) = length data.
Proof.
  unfold Trend.calculate_regression_trend, Trend.all_none.
  destruct (length data <? 3)%nat; [apply repeat_length|].
  destruct (length (Trend.valid_pairs data) <? 3)%nat; [apply repeat_length|].
  destruct (slice_from (Trend.valid_pairs data) (-6)) as [|[first y] rest];
    [apply repeat_length|].
  destruct (Trend.polyfit _) as [[slope intercept]|]; [|apply repeat_length].
  rewrite length_map, length_seq. reflexivity.
Qed.

Lemma map_fst_combine_eq {A B} (l1 : list A) (l2 : list B) :
  length l1 = length l2 -> map fst (combine l1 l2) = l1.
Proof.
  revert l2. induction l1 as [|x l1 IH]; intros [|y l2] H; simpl in *;
    try reflexivity; try discriminate.
  f_equal. apply IH. lia.
Qed.

Lemma map_snd_combine_eq {A B} (l1 : list A) (l2 : list B) :
  length l1 = length l2 -> map snd (combine l1 l2) = l2.
Proof.
  revert l2. induction l1 as [|x l1 IH]; intros [|y l2] H; simpl in *;
    try reflexivity; try discriminate.
  f_equal. apply IH. lia.
Qed.

Lemma StronglySorted_map_inv {A B} (S : B -> B -> Prop) (f : A -> B) (l : list A) :
  StronglySorted S (map f l) -> StronglySorted (fun a b => S (f a) (f b)) l.
Proof.
  induction l as [|x l IH]; simpl; intros H; [constructor|].
  inversion H as [|? ? Hs Hx]; subst. constructor; [apply IH, Hs|].
  rewrite Forall_forall in *. intros y Hy. apply Hx, in_map, Hy.
Qed.

Lemma Forall2_in_right {A B} (R : A -> B -> Prop) (l1 : list A) (l2 : list B) (y : B) :
  Forall2 R l1 l2 -> In y l2 -> exists x, In x l1 /\ R x y.
Proof.
  induction 1 as [|a b l1 l2 Hab _ IH]; intros Hin; [destruct Hin|].
  destruct Hin as [<-|Hin].
  - exists a. split; [now left|exact Hab].
  - destruct (IH Hin) as (x & Hx & Hr). exists x. split; [now right|exact Hr].
Qed.

Lemma data_point_some (t : Tables) (region date : string) (p : DataPoint) :
  data_point t region date = Some p ->
  month_of date = Some (month p)
  /\ value_at (homeowner_df t) region date = Some (homeownerAffordability p)
  /\ value_at (renter_df t) region date = Some (renterAffordability p)
  /\ value_at (total_payment_df t) region date = Some (totalPayment p)
  /\ value_at (mortgage_payment_df t) region date = Some (mortgagePayment p)
  /\ value_at (affordable_price_df t) region date = Some (affordablePrice p)
  /\ value_at (median_price_df t) region date = Some (medianPrice p)
  /\ affordabilityGap p = difference (homeownerAffordability p) (renterAffordability p)
  /\ paymentGap p = difference (totalPayment p) (mortgagePayment p)
  /\ priceGap p = difference (medianPrice p) (affordablePrice p).
Proof.
  unfold data_point.
  destruct (month_of date); [|discriminate].
  destruct (value_at (homeowner_df t) region date); [|discriminate].
  destruct (value_at (renter_df t) region date); [|discriminate].
  destruct (value_at (total_payment_df t) region date); [|discriminate].
  destruct (value_at (mortgage_payment_df t) region date); [|discriminate].
  destruct (value_at (affordable_price_df t) region date); [|discriminate].
  destruct (value_at (median_price_df t) region date); [|discriminate].
  intros [= <-]. simpl. repeat split.
Qed.

(** X18.  When the monthly-series endpoint succeeds it returns one point
    for every distinct date column of the six tables, in ascending order of
    the month label; each point holds, for some date column whose label is
    its month, the six values of the region at that date, and each of its
    three gaps is the difference of its two values when both are present
    and absent otherwise; the two trend fields are the trend estimator's
    output on the series of affordability gaps and of price gaps. *)
Theorem metrics_points_shape (t : Tables) (region : string) (pts : list TrendPoint) :
  get_affordability_metrics t region = Some pts ->
  length pts = length (all_date_columns t)
  /\ StronglySorted
       (fun a b => String.leb (month (point a)) (month (point b)) = true) pts
  /\ (forall tp, In tp pts ->
        exists date,
          In date (all_date_columns t)
          /\ month_of date = Some (month (point tp))
          /\ value_at (homeowner_df t) region date
             = Some (homeownerAffordability (point tp))
          /\ value_at (renter_df t) region date = Some (renterAffordability (point tp))
          /\ value_at (total_payment_df t) region date = Some (totalPayment (point tp))
          /\ value_at (mortgage_payment_df t) region date
             = Some (mortgagePayment (point tp))
          /\ value_at (affordable_price_df t) region date
             = Some (affordablePrice (point tp))
          /\ value_at (median_price_df t) region date = Some (medianPrice (point tp))
          /\ affordabilityGap (point tp)
             = difference (homeownerAffordability (point tp))
                          (renterAffordability (point tp))
          /\ paymentGap (point tp)
             = difference (totalPayment (point tp)) (mortgagePayment (point tp))
          /\ priceGap (point tp)
             = difference (medianPrice (point tp)) (affordablePrice (point tp)))
  /\ map gapTrend pts
     = Trend.calculate_regression_trend
         (trend_input (map (fun tp => affordabilityGap (point tp)) pts))
  /\ map priceTrend pts
     = Trend.calculate_regression_trend
         (trend_input (map (fun tp => priceGap (point tp)) pts)).
Proof.
  unfold get_affordability_metrics.
  destruct (map_opt (data_point t region) (all_date_columns t)) as [collected|] eqn:Em;
    [|discriminate].
  apply map_opt_some in Em.
  set (rd := sorted (fun a b => String.leb (month a) (month b)) collected).
  set (gt := Trend.calculate_regression_trend (trend_input (map affordabilityGap rd))).
  set (pt := Trend.calculate_regression_trend (trend_input (map priceGap rd))).
  intros [= <-].
  assert (Lrd : length rd = length (all_date_columns t)).
  { unfold rd. rewrite sorted_length. symmetry. exact (Forall2_length Em). }
  assert (Lgt : length gt = length rd).
  { unfold gt, trend_input. rewrite trend_length, !length_map. reflexivity. }
  assert (Lpt : length pt = length rd).
  { unfold pt, trend_input. rewrite trend_length, !length_map. reflexivity. }
  assert (Lc : length (combine rd gt) = length rd) by (rewrite length_combine; lia).
  assert (Epoint : map point (map (fun p => mkTrendPoint (fst (fst p)) (snd (fst p)) (snd p))
                                  (combine (combine rd gt) pt)) = rd).
  { rewrite map_map. cbn [point]. rewrite <- (map_map fst fst).
    rewrite map_fst_combine_eq by lia. apply map_fst_combine_eq. lia. }
  assert (Egap : map gapTrend (map (fun p => mkTrendPoint (fst (fst p)) (snd (fst p)) (snd p))
                                   (combine (combine rd gt) pt)) = gt).
  { rewrite map_map. cbn [gapTrend]. rewrite <- (map_map fst snd).
    rewrite map_fst_combine_eq by lia. apply map_snd_combine_eq. lia. }
  assert (Eprice : map priceTrend
                     (map (fun p => mkTrendPoint (fst (fst p)) (snd (fst p)) (snd p))
                          (combine (combine rd gt) pt)) = pt).
  { rewrite map_map. cbn [priceTrend]. apply map_snd_combine_eq. lia. }
  set (pts := map (fun p => mkTrendPoint (fst (fst p)) (snd (fst p)) (snd p))
                  (combine (combine rd gt) pt)) in *.
  split; [rewrite <- Lrd, <- Epoint, length_map; reflexivity|].
  split.
  { apply StronglySorted_map_inv with (f := point)
      (S := fun a b => String.leb (month a) (month b) = true).
    rewrite Epoint. unfold rd. apply sorted_sorted.
    - intros x y. apply String.leb_total.
    - intros x y z. apply string_leb_trans. }
  split.
  { intros tp Htp. apply (in_map point) in Htp. rewrite Epoint in Htp.
    unfold rd in Htp. apply sorted_in in Htp.
    destruct (Forall2_in_right _ _ _ _ Em Htp) as (date & Hdate & Hp).
    exists date. split; [exact Hdate|]. apply data_point_some. exact Hp. }
  rewrite <- (map_map point affordabilityGap), <- (map_map point priceGap), Epoint.
  split; [exact Egap|exact Eprice].
Qed.

Lemma metrics_points_shape_witness :
  exists pts,
    get_affordability_metrics SeriesSamples.two_tables "Boise, ID" = Some pts
    /\ length pts = length (all_date_columns SeriesSamples.two_tables)
    /\ map gapTrend pts
       = Trend.calculate_regression_trend
           (trend_input (map (fun tp => affordabilityGap (point tp)) pts)).
Proof.
  eexists. split; [reflexivity|].
  pose proof (metrics_points_shape SeriesSamples.two_tables "Boise, ID" _ eq_refl) as H.
  split; [exact (proj1 H)|exact (proj1 (proj2 (proj2 (proj2 H))))].
Defined.

End AffordabilityMetricsFacts.

(* ================================================================== *)
(** * The metrics handler: the values of a point *)
(* ================================================================== *)

Module MetricsValues.
Import Py Comparator Metrics MetricsSpec PyFacts ComparatorFacts MetricsFacts.
Import ComparatorCoverage MetricsCoverage.
Local Open Scope Q_scope.




End MetricsValues.
